(** * news-mcp-server: ranking, cache store, feed configuration and refresh

    A shallow embedding of the TypeScript sources

      - [ranking.ts]            (scoring engine),
      - [sources/hackernews.ts] (Hacker News adapter),
      - [sources/rss.ts]        (RSS adapter),
      - [storage/database.ts]   (SQLite cache store),
      - [storage/config.ts]     (RSS feed registrations),
      - [index.ts]              (the tool and resource handlers),

    together with the properties the specification states about them.

    Conventions of the embedding.
      - A JavaScript [number] is an IEEE 754 binary64 value: Rocq's primitive
        [float].  [NaN], the infinities and the signed zeros are therefore
        part of the model.
      - A JavaScript [Date] is either invalid or a whole number of
        milliseconds since the epoch; [Date.now()] is an explicit argument.
      - Strings are sequences of 8-bit characters; [toLowerCase] maps the
        letters A-Z to a-z and leaves every other character alone.
      - A thrown exception is the [Throw] case of [result]; awaited calls
        run one after the other, as the handler awaits them. *)

From Stdlib Require Import ZArith List String Ascii Bool Lia.
From Stdlib Require Import Floats Uint63.
From Stdlib Require Import Sorting.Sorted Sorting.Permutation.
From Stdlib Require Import DecimalString.
Import ListNotations.

Set Warnings "-inexact-float".

Local Open Scope string_scope.
Local Open Scope Z_scope.

(* ================================================================== *)
(** * JavaScript values *)
(* ================================================================== *)

Module JS.

(** An error object: the name of its class and its message. *)
Inductive Error : Type :=
| mkError (name message : string).

(** [new Error(message)] *)
Definition new_Error (message : string) : Error := mkError "Error" message.

(** [`${error}`], that is [Error.prototype.toString]. *)
Definition error_toString (error : Error) : string :=
  match error with
  | mkError name message => name ++ ": " ++ message
  end.

(** A computation that may throw: [Ok v] or [Throw error]; for an
    asynchronous call, a promise that is fulfilled or rejected. *)
Inductive result (A : Type) : Type :=
| Ok (v : A)
| Throw (error : Error).
Arguments Ok {A} v.
Arguments Throw {A} error.

Definition bind {A B} (r : result A) (k : A -> result B) : result B :=
  match r with
  | Ok v => k v
  | Throw e => Throw e
  end.

(** [ToBoolean] on a number: [NaN], [+0] and [-0] are falsy. *)
Definition truthy (x : float) : bool :=
  negb (is_nan x) && negb (PrimFloat.eqb x 0%float).

(** [Math.max(a, b)]: [NaN] as soon as one argument is [NaN]; [+0] is
    larger than [-0]. *)
Definition Math_max (a b : float) : float :=
  if is_nan a || is_nan b then nan
  else if PrimFloat.ltb a b then b
  else if PrimFloat.ltb b a then a
  else if get_sign a then b else a.

(** The number whose value is the integer [z] (exact below 2^53). *)
Definition number_of_Z (z : Z) : float :=
  match z with
  | Z0 => 0%float
  | Zpos _ => of_uint63 (Uint63.of_Z z)
  | Zneg p => PrimFloat.opp (of_uint63 (Uint63.of_Z (Zpos p)))
  end.

(** A [Date] object: its time value is a whole number of milliseconds, or
    [NaN] for an invalid date such as [new Date("no date at all")]. *)
Inductive Date : Type :=
| InvalidDate
| DateMs (ms : Z).

Definition getTime (d : Date) : float :=
  match d with
  | InvalidDate => nan
  | DateMs ms => number_of_Z ms
  end.

(** [String.prototype.toLowerCase], on the letters A-Z. *)
Definition lower_ascii (c : ascii) : ascii :=
  let n := nat_of_ascii c in
  if (Nat.leb 65 n && Nat.leb n 90)%bool then ascii_of_nat (n + 32) else c.

Fixpoint toLowerCase (s : string) : string :=
  match s with
  | EmptyString => EmptyString
  | String c s' => String (lower_ascii c) (toLowerCase s')
  end.

(** [s.includes(sub)]: [sub] occurs in [s] as a contiguous substring. *)
Fixpoint includes (s sub : string) : bool :=
  if String.prefix sub s then true
  else match s with
       | EmptyString => false
       | String _ s' => includes s' sub
       end.

(** [s.startsWith(p)]. *)
Definition startsWith (s p : string) : bool := String.prefix p s.

(** Template-literal rendering of a non-negative integer, as in
    [`${items.length}`]. *)
Definition show_nat (n : nat) : string :=
  NilZero.string_of_uint (Nat.to_uint n).

(** Template-literal rendering of an integer, as in [`${story.id}`]. *)
Definition show_Z (z : Z) : string :=
  NilZero.string_of_int (Z.to_int z).

(** [new Date(t)] for a whole number [t] of milliseconds: a time value
    beyond 8.64e15 ms on either side of the epoch gives an invalid date. *)
Definition new_Date (t : Z) : Date :=
  if Z.abs t <=? 8640000000000000 then DateMs t else InvalidDate.

(** [array.slice(0, end)]: a negative [end] counts from the end of the
    array. *)
Definition slice_to {A : Type} (end_ : Z) (l : list A) : list A :=
  if end_ <? 0 then firstn (Z.to_nat (Z.of_nat (List.length l) + end_)) l
  else firstn (Z.to_nat end_) l.

(** A [Map] with string keys, as the list of its entries in insertion
    order: [set] on a key that is present replaces the value in place. *)
Definition JSMap (V : Type) : Type := list (string * V).

Fixpoint map_set {V : Type} (k : string) (v : V) (m : JSMap V) : JSMap V :=
  match m with
  | nil => (k, v) :: nil
  | (k', v') :: m' =>
      if String.eqb k' k then (k, v) :: m' else (k', v') :: map_set k v m'
  end.

Fixpoint map_get {V : Type} (k : string) (m : JSMap V) : option V :=
  match m with
  | nil => None
  | (k', v') :: m' => if String.eqb k' k then Some v' else map_get k m'
  end.

End JS.
Import JS.

(* ================================================================== *)
(** * types.ts *)
(* ================================================================== *)

Record FeedItem : Type := mkFeedItem {
  id : string;
  source : string;
  title : string;
  url : string;
  content : option string;
  author : option string;
  points : option float;
  comments : option float;
  published_at : Date;
  cached_at : Date;
  rank_score : option float
}.

Record RSSFeedConfig : Type := mkRSSFeedConfig {
  feed_url : string;
  feed_name : string;
  refresh_interval_minutes : option float
}.

(* ================================================================== *)
(** * ranking.ts *)
(* ================================================================== *)

Module Ranking.

Local Open Scope float_scope.

Record KeywordCategory : Type := mkCategory {
  keywords : list string;
  weight : float
}.

(** Tools the user cares about. *)
Definition tools : KeywordCategory :=
  mkCategory
    [ "claude-code"; "claude code"; "vscode"; "vs code"; "visual studio code";
      "github"; "aws"; "cloudflare"; "cursor"; "ruby on rails"; "rails";
      "copilot"; "typescript"; "react"; "node.js"; "nodejs" ]%string
    50.

(** AI development techniques. *)
Definition aiTechniques : KeywordCategory :=
  mkCategory
    [ "ai development"; "prompt engineering"; "llm"; "agent"; "agents";
      "langchain"; "openai"; "anthropic"; "claude"; "gpt";
      "embeddings"; "rag"; "fine-tuning"; "ai coding"; "code generation";
      "mcp"; "model context protocol" ]%string
    30.

(** Security techniques. *)
Definition securityTechniques : KeywordCategory :=
  mkCategory
    [ "app security"; "application security"; "appsec"; "vulnerability";
      "pentest"; "penetration testing"; "exploit"; "security testing";
      "owasp"; "xss"; "sql injection"; "csrf"; "authentication";
      "authorization"; "secure coding"; "security audit" ]%string
    30.

(** Practical, actionable content. *)
Definition practicalContent : KeywordCategory :=
  mkCategory
    [ "how to"; "tutorial"; "guide"; "technique"; "best practices";
      "deep dive"; "case study"; "implementation"; "walkthrough";
      "explained"; "introducing"; "new feature"; "update"; "release" ]%string
    20.

(** Funding and valuation news. *)
Definition funding : KeywordCategory :=
  mkCategory
    [ "raises"; "funding"; "series a"; "series b"; "series c";
      "valuation"; "ipo"; "acquisition"; "acquires"; "invested";
      "investment"; "venture capital"; "vc"; "seed round" ]%string
    (-40).

(** Generic industry fluff. *)
Definition genericHype : KeywordCategory :=
  mkCategory
    [ "announces partnership"; "strategic partnership"; "collaboration";
      "expands into"; "appoints"; "names"; "ceo"; "rebrands" ]%string
    (-20).

(** [Object.values(BOOST_KEYWORDS)], in property insertion order. *)
Definition BOOST_KEYWORDS : list KeywordCategory :=
  [ tools; aiTechniques; securityTechniques; practicalContent ].

(** [Object.values(PENALTY_KEYWORDS)], in property insertion order. *)
Definition PENALTY_KEYWORDS : list KeywordCategory :=
  [ funding; genericHype ].

(** The inner loop [for (const keyword of category.keywords)]: the first
    keyword found in [text] adds the category weight and leaves the loop
    ([break]); with no keyword found the score is unchanged. *)
Fixpoint scanKeywords (text : string) (kws : list string) (w : float)
    (score : float) : float :=
  match kws with
  | [] => score
  | keyword :: rest =>
      if includes text (toLowerCase keyword) then score + w
      else scanKeywords text rest w score
  end.

(** One outer loop [for (const category of Object.values(...))]. *)
Definition scanCategories (text : string) (cats : list KeywordCategory)
    (score : float) : float :=
  fold_left
    (fun score category =>
       scanKeywords text (keywords category) (weight category) score)
    cats score.

(** [`${item.title} ${item.content || ''}`.toLowerCase()] *)
Definition scoringText (item : FeedItem) : string :=
  toLowerCase
    (title item ++ " " ++
     match content item with Some c => c | None => "" end)%string.

Definition calculateKeywordScore (item : FeedItem) : float :=
  let text := scoringText item in
  let score := 0 in
  let score := scanCategories text BOOST_KEYWORDS score in
  let score := scanCategories text PENALTY_KEYWORDS score in
  score.

Definition calculateEngagementScore (item : FeedItem) : float :=
  let score := 0 in
  let score :=
    match points item with
    | Some p => if truthy p then score + p * 0.1 else score
    | None => score
    end in
  let score :=
    match comments item with
    | Some c => if truthy c then score + c * 0.05 else score
    | None => score
    end in
  score.

(** [now] is the value of [Date.now()], in milliseconds. *)
Definition calculateRecencyScore (now : Z) (item : FeedItem) : float :=
  let ageInHours :=
    (number_of_Z now - getTime (published_at item)) / (1000 * 60 * 60) in
  Math_max 0 (100 - ageInHours).

Definition premiumSources : list string :=
  [ "hackernews"; "rss:awsblog"; "rss:cloudflare"; "rss:github";
    "rss:tldr-ai"; "rss:tldr-infosec"; "rss:krebs" ]%string.

Definition generalSources : list string :=
  [ "rss:techcrunch"; "rss:verge" ]%string.

Definition calculateSourceScore (item : FeedItem) : float :=
  let source := toLowerCase (source item) in
  if existsb (fun s => includes source s) premiumSources then 20
  else if existsb (fun s => includes source s) generalSources then -10
  else 0.

Definition calculateRankScore (now : Z) (item : FeedItem) : float :=
  let keywordScore := calculateKeywordScore item in
  let engagementScore := calculateEngagementScore item in
  let recencyScore := calculateRecencyScore now item in
  let sourceScore := calculateSourceScore item in
  let totalScore :=
    keywordScore + engagementScore + recencyScore + sourceScore in
  Math_max 0 totalScore.

(** [calculateRankScores]: the scores of the items, keyed by [id]; [now]
    is the value [Date.now()] has while the items are scored. *)
Definition calculateRankScores (now : Z) (items : list FeedItem)
    : JSMap float :=
  fold_left
    (fun scores item => map_set (id item) (calculateRankScore now item) scores)
    items nil.

End Ranking.

(* ================================================================== *)
(** * sources/hackernews.ts *)
(* ================================================================== *)

Module HackerNews.

Import Ranking.
Local Open Scope list_scope.

(** A story as the item API returns it; [time] is in whole seconds. *)
Record HNStory : Type := mkStory {
  story_id : Z;
  story_title : string;
  story_url : option string;
  story_text : option string;
  story_by : string;
  story_time : Z;
  story_score : float;
  story_descendants : float;
  story_type : string
}.

(** What the API answers during one call of [fetchFeed]: the list of top
    story ids, and for each id the result of [fetchStory], which is [null]
    when the request failed or the API answered [null]. *)
Record Api : Type := mkApi {
  topstories : result (list Z);
  fetchStory : Z -> option HNStory
}.

(** The body of the [map] callback: [now] is the date taken before the
    loop, [scored] the value of [Date.now()] when the item is scored. *)
Definition item_of_story (now scored : Z) (story : HNStory) : FeedItem :=
  let item :=
    mkFeedItem
      ("hn:" ++ show_Z (story_id story))%string
      "hackernews"
      (story_title story)
      (match story_url story with
       | Some (String c u) => String c u
       | _ => ("https://news.ycombinator.com/item?id="
               ++ show_Z (story_id story))%string
       end)
      (story_text story)
      (Some (story_by story))
      (Some (story_score story))
      (Some (story_descendants story))
      (new_Date (story_time story * 1000))
      (DateMs now)
      None in
  mkFeedItem (id item) (source item) (title item) (url item) (content item)
    (author item) (points item) (comments item) (published_at item)
    (cached_at item) (Some (calculateRankScore scored item)).

(** [stories.filter(story => story !== null)] *)
Fixpoint non_null (stories : list (option HNStory)) : list HNStory :=
  match stories with
  | [] => []
  | Some story :: rest => story :: non_null rest
  | None :: rest => non_null rest
  end.

(** [array.map(f)] where the callback reads the clock: [clock k] is the
    value of [Date.now()] during the call for the element at index [k]. *)
Fixpoint map_at {A B : Type} (f : Z -> A -> B) (clock : nat -> Z) (k : nat)
    (l : list A) : list B :=
  match l with
  | [] => []
  | x :: rest => f (clock k) x :: map_at f clock (S k) rest
  end.

(** [fetchFeed(limit = 30)] *)
Definition fetchFeed (api : Api) (limit : option Z) (now : Z)
    (clock : nat -> Z) : result (list FeedItem) :=
  let limit := match limit with Some n => n | None => 30 end in
  match topstories api with
  | Throw error => Throw error
  | Ok storyIds =>
      let stories := map (fetchStory api) (slice_to limit storyIds) in
      Ok (map_at (item_of_story now) clock 0 (non_null stories))
  end.

End HackerNews.

(* ================================================================== *)
(** * sources/rss.ts *)
(* ================================================================== *)

Module RSS.

Import Ranking.
Local Open Scope list_scope.

(** [html.replace(/<[^>]*>/g, '')]: a match runs from a [<] to the first
    [>] after it; a [<] with no [>] after it stays. *)
Fixpoint contains_gt (s : string) : bool :=
  match s with
  | EmptyString => false
  | String c s' => Ascii.eqb c ">" || contains_gt s'
  end.

Fixpoint removeTags (s : string) (inTag : bool) : string :=
  match s with
  | EmptyString => EmptyString
  | String c s' =>
      if inTag then
        if Ascii.eqb c ">" then removeTags s' false else removeTags s' true
      else if Ascii.eqb c "<" && contains_gt s' then removeTags s' true
      else String c (removeTags s' false)
  end.

(** [s.replace(/pattern/g, replacement)] for a literal, non-empty
    pattern: [skip] counts the characters of a match still to be dropped. *)
Fixpoint replaceAll_from (pattern replacement s : string) (skip : nat)
    : string :=
  match s with
  | EmptyString => EmptyString
  | String c s' =>
      match skip with
      | S k => replaceAll_from pattern replacement s' k
      | O =>
          if String.prefix pattern s
          then (replacement
                ++ replaceAll_from pattern replacement s'
                     (String.length pattern - 1))%string
          else String c (replaceAll_from pattern replacement s' 0)
      end
  end.

Definition replaceAll (pattern replacement s : string) : string :=
  replaceAll_from pattern replacement s 0.

(** White space of [trim], among the ASCII characters. *)
Definition is_space (c : ascii) : bool :=
  let n := nat_of_ascii c in
  (Nat.leb 9 n && Nat.leb n 13) || Nat.eqb n 32.

Fixpoint trimStart (s : string) : string :=
  match s with
  | EmptyString => EmptyString
  | String c s' => if is_space c then trimStart s' else s
  end.

Fixpoint trimEnd (s : string) : string :=
  match s with
  | EmptyString => EmptyString
  | String c s' =>
      match trimEnd s' with
      | EmptyString => if is_space c then EmptyString else String c EmptyString
      | t => String c t
      end
  end.

Definition trim (s : string) : string := trimEnd (trimStart s).

Definition stripHtml (html : string) : string :=
  trim
    (replaceAll "&quot;" (String (ascii_of_nat 34) "")
       (replaceAll "&gt;" ">"
          (replaceAll "&lt;" "<"
             (replaceAll "&amp;" "&"
                (replaceAll "&nbsp;" " "
                   (removeTags html false)))))).

(** An item as [rss-parser] delivers it, with the two custom fields. *)
Record ParsedItem : Type := mkParsedItem {
  guid : option string;
  link : option string;
  item_title : option string;
  pubDate : option string;
  contentEncoded : option string;
  item_content : option string;
  item_description : option string;
  creator : option string;
  item_author : option string
}.

(** [a || b] on optional strings: [a] when it is a non-empty string. *)
Definition or_else (a b : option string) : option string :=
  match a with
  | Some (String c s) => a
  | _ => b
  end.

(** [`${x}`] for an optional string. *)
Definition show_optional (x : option string) : string :=
  match x with
  | Some s => s
  | None => "undefined"
  end.

(** The body of the [map] callback of [fetchFeed].  [parseDate] is the
    date parser of [new Date(string)]; [created] and [scored] are the clock
    readings of [new Date()] and of the scoring. *)
Definition item_of_parsed (parseDate : string -> Date) (name : string)
    (now created scored : Z) (item : ParsedItem) : FeedItem :=
  let content_ :=
    match or_else (contentEncoded item)
            (or_else (item_content item) (item_description item)) with
    | Some (String c s) => String c s
    | _ => EmptyString
    end in
  let publishedDate :=
    match pubDate item with
    | Some (String c s) => parseDate (String c s)
    | _ => DateMs created
    end in
  let feedItem :=
    mkFeedItem
      ("rss:" ++ name ++ ":"
       ++ show_optional (or_else (guid item)
                           (or_else (link item) (item_title item))))%string
      ("rss:" ++ name)%string
      (match item_title item with
       | Some (String c s) => String c s
       | _ => "Untitled"%string
       end)
      (match link item with
       | Some (String c s) => String c s
       | _ => EmptyString
       end)
      (Some (stripHtml content_))
      (or_else (creator item) (item_author item))
      None None
      publishedDate
      (DateMs now)
      None in
  mkFeedItem (id feedItem) (source feedItem) (title feedItem) (url feedItem)
    (content feedItem) (author feedItem) (points feedItem)
    (comments feedItem) (published_at feedItem) (cached_at feedItem)
    (Some (calculateRankScore scored feedItem)).

Fixpoint map_items (parseDate : string -> Date) (name : string) (now : Z)
    (clock : nat -> Z * Z) (k : nat) (items : list ParsedItem)
    : list FeedItem :=
  match items with
  | [] => []
  | item :: rest =>
      item_of_parsed parseDate name now (fst (clock k)) (snd (clock k)) item
      :: map_items parseDate name now clock (S k) rest
  end.

(** [fetchFeed(limit = 50)]: [parsed] is the outcome of
    [this.parser.parseURL(this.url)], reduced to [feed.items]. *)
Definition fetchFeed (parseDate : string -> Date) (name : string)
    (parsed : result (list ParsedItem)) (limit : option Z) (now : Z)
    (clock : nat -> Z * Z) : result (list FeedItem) :=
  let limit := match limit with Some n => n | None => 50 end in
  match parsed with
  | Throw error => Throw error
  | Ok items =>
      Ok (map_items parseDate name now clock 0 (slice_to limit items))
  end.

End RSS.

(* ================================================================== *)
(** * storage/database.ts *)
(* ================================================================== *)

Module Database.

Local Open Scope list_scope.

(** One row of the table [feed_items].  [published_at] and [cached_at] are
    INTEGER columns holding whole seconds since the epoch; [rank_score] is a
    REAL column.  The four nullable columns are options. *)
Record Row : Type := mkRow {
  row_id : string;
  row_source : string;
  row_title : string;
  row_url : string;
  row_content : option string;
  row_author : option string;
  row_points : option float;
  row_comments : option float;
  row_published_at : Z;
  row_cached_at : Z;
  row_rank_score : float
}.

(** The table, in insertion (rowid) order.  [id TEXT PRIMARY KEY] is not
    built into the type: that no two rows share an [id] is the invariant
    [unique_ids], proved of every operation below. *)
Definition Table : Type := list Row.

Definition unique_ids (db : Table) : Prop := NoDup (map row_id db).

(** [s || null] for an optional string: the empty string is falsy. *)
Definition string_or_null (s : option string) : option string :=
  match s with
  | Some EmptyString => None
  | other => other
  end.

(** [n || null] for an optional number. *)
Definition number_or_null (n : option float) : option float :=
  match n with
  | Some x => if truthy x then Some x else None
  | None => None
  end.

(** [n || 0] for an optional number. *)
Definition number_or_zero (n : option float) : float :=
  match n with
  | Some x => if truthy x then x else 0%float
  | None => 0%float
  end.

(** [Math.floor(d.getTime() / 1000)] bound to a [NOT NULL] column: an
    invalid date gives [NaN], which SQLite stores as NULL, so the statement
    fails on the constraint. *)
Definition epoch_seconds (column : string) (d : Date) : result Z :=
  match d with
  | DateMs ms => Ok (ms / 1000)
  | InvalidDate =>
      Throw (mkError "SqliteError"
               ("NOT NULL constraint failed: feed_items." ++ column)%string)
  end.

(** The values [saveFeedItem] binds to the eleven placeholders. *)
Definition bind_row (item : FeedItem) : result Row :=
  bind (epoch_seconds "published_at" (published_at item)) (fun published =>
  bind (epoch_seconds "cached_at" (cached_at item)) (fun cached =>
  Ok (mkRow (id item) (source item) (title item) (url item)
        (string_or_null (content item))
        (string_or_null (author item))
        (number_or_null (points item))
        (number_or_null (comments item))
        published cached
        (number_or_zero (rank_score item))))).

(** [INSERT OR REPLACE]: a row with the same primary key is deleted, then
    the new row is inserted. *)
Definition insert_or_replace (r : Row) (db : Table) : Table :=
  filter (fun old => negb (String.eqb (row_id old) (row_id r))) db ++ [r].

Definition saveFeedItem (item : FeedItem) (db : Table) : result Table :=
  bind (bind_row item) (fun r => Ok (insert_or_replace r db)).

(** [saveFeedItems] runs the loop inside one transaction: when a statement
    throws, nothing of the batch is kept and the error is rethrown. *)
Fixpoint saveFeedItems (items : list FeedItem) (db : Table) : result Table :=
  match items with
  | [] => Ok db
  | item :: rest => bind (saveFeedItem item db) (saveFeedItems rest)
  end.

Record GetFeedOptions : Type := mkOptions {
  opt_source : option string;
  opt_limit : option Z;
  opt_since : option Date
}.

(** [rows.map(row => ({ ... }))] *)
Definition item_of_row (row : Row) : FeedItem :=
  mkFeedItem (row_id row) (row_source row) (row_title row) (row_url row)
    (row_content row) (row_author row) (row_points row) (row_comments row)
    (DateMs (row_published_at row * 1000))
    (DateMs (row_cached_at row * 1000))
    (Some (row_rank_score row)).

(** [ORDER BY rank_score DESC, published_at DESC]: [a] may stand before
    [b]. *)
Definition order_by (a b : Row) : bool :=
  PrimFloat.ltb (row_rank_score b) (row_rank_score a)
  || (PrimFloat.eqb (row_rank_score a) (row_rank_score b)
      && (row_published_at b <=? row_published_at a)).

Fixpoint insert_sorted (r : Row) (l : list Row) : list Row :=
  match l with
  | [] => [r]
  | x :: l' => if order_by r x then r :: l else x :: insert_sorted r l'
  end.

(** The sort is stable: rows that tie on both keys keep their table order
    (SQLite itself leaves the order of ties open). *)
Definition sort_rows (l : list Row) : list Row :=
  fold_right insert_sorted [] l.

(** [LIMIT n]: a negative [n] means no limit. *)
Definition sql_limit (n : Z) (l : list Row) : list Row :=
  if n <? 0 then l else firstn (Z.to_nat n) l.

(** [AND published_at >= ?] with [Math.floor(since.getTime() / 1000)]; the
    comparison with the NULL of an invalid date holds for no row. *)
Definition since_matches (since : Date) (r : Row) : bool :=
  match since with
  | DateMs ms => ms / 1000 <=? row_published_at r
  | InvalidDate => false
  end.

(** The WHERE clause [getFeedItems] assembles. *)
Definition where_clause (options : GetFeedOptions) (r : Row) : bool :=
  (match opt_source options with
   | Some EmptyString | None => true          (* if (options.source) *)
   | Some s => String.eqb (row_source r) s
   end)
  && (match opt_since options with
      | Some since => since_matches since r   (* if (options.since) *)
      | None => true
      end).

Definition getFeedRows (options : GetFeedOptions) (db : Table) : list Row :=
  let rows := sort_rows (filter (where_clause options) db) in
  match opt_limit options with
  | Some n => if n =? 0 then rows else sql_limit n rows  (* if (options.limit) *)
  | None => rows
  end.

Definition getFeedItems (options : GetFeedOptions) (db : Table)
    : list FeedItem :=
  map item_of_row (getFeedRows options db).

(** SQLite's [LIKE]: [%] matches any run of characters, [_] any single
    character, and letters match without regard to case; there is no
    escape character unless the statement names one. *)
Fixpoint like (pattern : string) (s : string) : bool :=
  match pattern with
  | EmptyString =>
      match s with EmptyString => true | _ => false end
  | String c pattern' =>
      if Ascii.eqb c "%" then
        (fix any_run (s : string) : bool :=
           like pattern' s
           || match s with
              | EmptyString => false
              | String _ s' => any_run s'
              end) s
      else
        match s with
        | EmptyString => false
        | String d s' =>
            (Ascii.eqb c "_" || Ascii.eqb (lower_ascii c) (lower_ascii d))
            && like pattern' s'
        end
  end.

(** [x LIKE ?] on a nullable column: NULL matches nothing. *)
Definition like_nullable (pattern : string) (s : option string) : bool :=
  match s with
  | Some s => like pattern s
  | None => false
  end.

Definition searchFeedRows (query : string) (limit : option Z) (db : Table)
    : list Row :=
  let limit := match limit with Some n => n | None => 50 end in
  let searchQuery := ("%" ++ query ++ "%")%string in
  sql_limit limit
    (sort_rows
       (filter (fun r => like searchQuery (row_title r)
                         || like_nullable searchQuery (row_content r))
               db)).

Definition searchFeedItems (query : string) (limit : option Z) (db : Table)
    : list FeedItem :=
  map item_of_row (searchFeedRows query limit db).

(** [SELECT DISTINCT source FROM feed_items] *)
Definition getAllSources (db : Table) : list string :=
  nodup string_dec (map row_source db).

(** [clearOldItems(daysToKeep = 7)]: [now] is [Date.now()] in
    milliseconds, [daysToKeep] a whole number of days.  Returns
    [result.changes] and the table after the DELETE. *)
Definition clearOldItems (daysToKeep : option Z) (now : Z) (db : Table)
    : Z * Table :=
  let daysToKeep := match daysToKeep with Some d => d | None => 7 end in
  let cutoffDate := now / 1000 - daysToKeep * 24 * 60 * 60 in
  let deleted := filter (fun r => row_cached_at r <? cutoffDate) db in
  (Z.of_nat (List.length deleted),
   filter (fun r => negb (row_cached_at r <? cutoffDate)) db).

End Database.
(* ================================================================== *)
(** * storage/config.ts *)
(* ================================================================== *)

Module Config.

Local Open Scope list_scope.

Record FeedConfig : Type := mkFeedConfig {
  rss_feeds : list RSSFeedConfig
}.

(** The manager's state: [this.config], and what the file at
    [this.configPath] holds ([None] while it does not exist). *)
Record ConfigManager : Type := mkConfigManager {
  config : FeedConfig;
  file : option FeedConfig
}.

(** A manager constructed where no configuration file exists. *)
Definition emptyConfig : ConfigManager :=
  mkConfigManager (mkFeedConfig []) None.

(** [saveConfig]: [write] is the outcome of [fs.writeFileSync] (and of
    creating the directory); an error is logged and rethrown. *)
Definition saveConfig (write : result unit) (c : ConfigManager)
    : ConfigManager * result unit :=
  match write with
  | Ok _ => (mkConfigManager (config c) (Some (config c)), Ok tt)
  | Throw e => (c, Throw e)
  end.

Definition getRSSFeeds (c : ConfigManager) : list RSSFeedConfig :=
  rss_feeds (config c).

Definition addRSSFeed (write : result unit) (feed : RSSFeedConfig)
    (c : ConfigManager) : ConfigManager * result unit :=
  (* Check if feed already exists *)
  let exists_ :=
    existsb (fun f => String.eqb (feed_url f) (feed_url feed))
            (rss_feeds (config c)) in
  if exists_ then
    (c, Throw (new_Error ("RSS feed with URL " ++ feed_url feed
                          ++ " already exists")%string))
  else
    let c := mkConfigManager
               (mkFeedConfig (rss_feeds (config c) ++ [feed])) (file c) in
    saveConfig write c.

Definition removeRSSFeed (write : result unit) (name : string)
    (c : ConfigManager) : ConfigManager * result bool :=
  let initialLength := List.length (rss_feeds (config c)) in
  let c := mkConfigManager
             (mkFeedConfig
                (filter (fun f => negb (String.eqb (feed_name f) name))
                        (rss_feeds (config c))))
             (file c) in
  if (List.length (rss_feeds (config c)) <? initialLength)%nat then
    match saveConfig write c with
    | (c, Ok _) => (c, Ok true)
    | (c, Throw e) => (c, Throw e)
    end
  else (c, Ok false).

Definition getAllSources (c : ConfigManager) : list string :=
  "hackernews" :: map (fun feed => ("rss:" ++ feed_name feed)%string)
                      (rss_feeds (config c)).

End Config.

(* ================================================================== *)
(** * index.ts: the [refresh_cache] tool *)
(* ================================================================== *)

Module Server.

Import Database Config.
Local Open Scope list_scope.

(** What the network answers during one call: the outcome of
    [this.hnSource.fetchFeed(30)], and of
    [new RSSFeedSource(name, url).fetchFeed(50)] for each registration.
    [Throw e] is a promise rejected with the error [e]. *)
Record Network : Type := mkNetwork {
  hnFetch : result (list FeedItem);
  rssFetch : string -> string -> result (list FeedItem)
}.

(** [!source] for an optional string argument. *)
Definition absent (source : option string) : bool :=
  match source with
  | None | Some EmptyString => true
  | Some _ => false
  end.

Definition source_is (source : option string) (s : string) : bool :=
  match source with
  | Some x => String.eqb x s
  | None => false
  end.

Definition source_startsWith (source : option string) (p : string) : bool :=
  match source with
  | Some x => startsWith x p
  | None => false
  end.

(** The body of one iteration of [for (const feed of feedsToRefresh)],
    with its own [try]/[catch]: the table and the line pushed onto
    [results]. *)
Definition refreshFeed (net : Network) (feed : RSSFeedConfig) (db : Table)
    : Table * string :=
  match
    bind (rssFetch net (feed_name feed) (feed_url feed)) (fun items =>
    bind (saveFeedItems items db) (fun db' => Ok (db', items)))
  with
  | Ok (db', items) =>
      (db', ("Refreshed " ++ feed_name feed ++ ": "
             ++ show_nat (List.length items) ++ " items")%string)
  | Throw error =>
      (db, ("Failed to refresh " ++ feed_name feed ++ ": "
            ++ error_toString error)%string)
  end.

Fixpoint refreshFeeds (net : Network) (feedsToRefresh : list RSSFeedConfig)
    (db : Table) (results : list string) : Table * list string :=
  match feedsToRefresh with
  | [] => (db, results)
  | feed :: rest =>
      let '(db, line) := refreshFeed net feed db in
      refreshFeeds net rest db (results ++ [line])
  end.

(** The body of the outer [try] of [handleRefreshCache]: the table
    afterwards, and either the [results] array or the error that reached
    the outer [catch]. *)
Definition refreshSources (net : Network) (cfg : ConfigManager)
    (source : option string) (db : Table)
    : Table * result (list string) :=
  let results : list string := [] in
  let hn : result (Table * list string) :=
    if absent source || source_is source "hackernews" then
      bind (hnFetch net) (fun hnItems =>
      bind (saveFeedItems hnItems db) (fun db' =>
      Ok (db', results ++
               [("Refreshed Hacker News: "
                 ++ show_nat (List.length hnItems) ++ " items")%string])))
    else Ok (db, results) in
  match hn with
  | Throw error => (db, Throw error)
  | Ok (db, results) =>
      if absent source || source_startsWith source "rss:" then
        let rssFeeds := getRSSFeeds cfg in
        let feedsToRefresh :=
          if absent source then rssFeeds
          else filter (fun f => source_is source ("rss:" ++ feed_name f)%string)
                      rssFeeds in
        let '(db, results) := refreshFeeds net feedsToRefresh db results in
        (db, Ok results)
      else (db, Ok results)
  end.

(** [handleRefreshCache]: the text of the reply, or the error thrown. *)
Definition handleRefreshCache (net : Network) (cfg : ConfigManager)
    (source : option string) (db : Table) : Table * result string :=
  match refreshSources net cfg source db with
  | (db, Ok results) =>
      (db, Ok (String.concat (String (ascii_of_nat 10) "") results))
  | (db, Throw error) =>
      (db, Throw (new_Error ("Failed to refresh cache: "
                             ++ error_toString error)%string))
  end.

(** The arguments of the [get_feed] tool; [limit] and [hours_ago] are
    whole numbers. *)
Record GetFeedArgs : Type := mkGetFeedArgs {
  arg_source : option string;
  arg_limit : option Z;
  arg_hours_ago : option Z
}.

(** [handleGetFeed], up to the rendering: the value of [items] that the
    handler hands to [formatFeedItems]; [now] is [Date.now()]. *)
Definition handleGetFeed_items (args : GetFeedArgs) (now : Z) (db : Table)
    : list FeedItem :=
  let source := arg_source args in
  let limit := match arg_limit args with Some n => n | None => 30 end in
  let hours_ago := arg_hours_ago args in
  let since :=
    match hours_ago with
    | Some h => if h =? 0 then None
                else Some (new_Date (now - h * 60 * 60 * 1000))
    | None => None
    end in
  getFeedItems
    (mkOptions
       (match source with
        | Some s => if absent source || String.eqb s "all" then None else Some s
        | None => None
        end)
       (Some limit) since)
    db.

(** A resource of the [ListResources] reply. *)
Record Resource : Type := mkResource {
  uri : string;
  mimeType : string;
  name : string;
  description : string
}.

(** The [ListResourcesRequestSchema] handler. *)
Definition listResources (cfg : ConfigManager) : list Resource :=
  let sources := Config.getAllSources cfg in
  let resources :=
    map (fun source =>
           mkResource ("feed://" ++ source) "application/json"
             (source ++ " feed") ("Latest items from " ++ source))%string
        sources in
  resources ++
  [ mkResource "feed://all" "application/json" "All feeds"
      "Aggregated feed from all sources" ].

(** A line terminator, which [.] of a regular expression does not match. *)
Definition line_terminator (c : ascii) : bool :=
  Ascii.eqb c (ascii_of_nat 10) || Ascii.eqb c (ascii_of_nat 13).

Fixpoint one_line (s : string) : bool :=
  match s with
  | EmptyString => true
  | String c s' => negb (line_terminator c) && one_line s'
  end.

(** [uri.match(/^feed:\/\/(.+)$/)]: the captured group, when the pattern
    matches. *)
Definition match_feed_uri (uri : string) : option string :=
  if startsWith uri "feed://" then
    let rest := String.substring 7 (String.length uri - 7) uri in
    match rest with
    | EmptyString => None
    | _ => if one_line rest then Some rest else None
    end
  else None.

(** The [ReadResourceRequestSchema] handler, up to the rendering: the
    value of [items], or the error thrown for a URI that is no feed URI. *)
Definition readResource_items (uri : string) (db : Table)
    : result (list FeedItem) :=
  match match_feed_uri uri with
  | None => Throw (new_Error ("Invalid feed URI: " ++ uri)%string)
  | Some source =>
      if String.eqb source "all"
      then Ok (getFeedItems (mkOptions None (Some 50) None) db)
      else Ok (getFeedItems (mkOptions (Some source) (Some 50) None) db)
  end.

(** [handleAddRSSFeed]: the text of the reply, or the error thrown;
    [write] is the outcome of writing the configuration file. *)
Definition handleAddRSSFeed (write : result unit) (name url : string)
    (cfg : ConfigManager) : ConfigManager * result string :=
  match addRSSFeed write (mkRSSFeedConfig url name None) cfg with
  | (cfg, Ok _) =>
      (cfg, Ok ("Successfully added RSS feed: " ++ name
                ++ " (" ++ url ++ ")")%string)
  | (cfg, Throw error) =>
      (cfg, Throw (new_Error ("Failed to add RSS feed: "
                              ++ error_toString error)%string))
  end.

(** [handleRemoveRSSFeed] *)
Definition handleRemoveRSSFeed (write : result unit) (name : string)
    (cfg : ConfigManager) : ConfigManager * result string :=
  match removeRSSFeed write name cfg with
  | (cfg, Throw error) => (cfg, Throw error)
  | (cfg, Ok removed) =>
      if removed
      then (cfg, Ok ("Successfully removed RSS feed: " ++ name)%string)
      else (cfg, Throw (new_Error ("RSS feed not found: " ++ name)%string))
  end.

End Server.

Import Ranking Database Config Server.

(* ================================================================== *)
(** * Vocabulary of the statements *)
(* ================================================================== *)

(** [x] is [NaN], as a statement about its IEEE 754 value. *)
Definition is_NaN (x : float) : Prop := Prim2SF x = S754_nan.

(** Some keyword of the category occurs in the text. *)
Definition matched (text : string) (c : KeywordCategory) : bool :=
  existsb (fun keyword => includes text (toLowerCase keyword)) (keywords c).

(** The REAL column [rank_score] never holds [NaN]. *)
Definition valid_scores (db : Table) : Prop :=
  Forall (fun r => is_nan (row_rank_score r) = false) db.

(** [a] stands before [b] under [ORDER BY rank_score DESC, published_at
    DESC]. *)
Definition ordered (a b : Row) : Prop := order_by a b = true.



(** No two registrations share a URL. *)
Definition distinct_urls (c : ConfigManager) : Prop :=
  NoDup (map feed_url (getRSSFeeds c)).

(** The configurations that calls of [addRSSFeed] and [removeRSSFeed] can
    produce from a manager that started without a file, whatever the calls
    return and whether or not the file could be written. *)
Inductive reachable : ConfigManager -> Prop :=
| reachable_empty : reachable emptyConfig
| reachable_add (write : result unit) (feed : RSSFeedConfig)
    (c : ConfigManager) :
    reachable c -> reachable (fst (addRSSFeed write feed c))
| reachable_remove (write : result unit) (name : string)
    (c : ConfigManager) :
    reachable c -> reachable (fst (removeRSSFeed write name c)).

(** A [<] with a [>] somewhere after it. *)
Fixpoint has_tag (s : string) : bool :=
  match s with
  | EmptyString => false
  | String c s' => (Ascii.eqb c "<" && RSS.contains_gt s') || has_tag s'
  end.

(** Neither [<] nor [&] occurs. *)
Fixpoint plain_text (s : string) : bool :=
  match s with
  | EmptyString => true
  | String c s' =>
      negb (Ascii.eqb c "<") && negb (Ascii.eqb c "&") && plain_text s'
  end.

(** The configurations reachable when every write of the file succeeds. *)
Inductive reachable_saved : ConfigManager -> Prop :=
| saved_empty : reachable_saved emptyConfig
| saved_add (feed : RSSFeedConfig) (c : ConfigManager) :
    reachable_saved c -> reachable_saved (fst (addRSSFeed (Ok tt) feed c))
| saved_remove (name : string) (c : ConfigManager) :
    reachable_saved c -> reachable_saved (fst (removeRSSFeed (Ok tt) name c)).

(** An item that SQLite accepts: both dates are valid. *)
Definition storable (item : FeedItem) : bool :=
  match published_at item, cached_at item with
  | DateMs _, DateMs _ => true
  | _, _ => false
  end.

(** The summary line of one registration, read off an empty table. *)
Definition summary_line (net : Network) (feed : RSSFeedConfig) : string :=
  snd (refreshFeed net feed []).

(** A registration whose fetch succeeded with items that can be stored. *)
Definition healthy (net : Network) (feed : RSSFeedConfig) : bool :=
  match rssFetch net (feed_name feed) (feed_url feed) with
  | Ok items => forallb storable items
  | Throw _ => false
  end.

(* ================================================================== *)
(** * Concrete inputs *)
(* ================================================================== *)

(** The item of the specification's worked example, scored at time [now]. *)
Definition example_item (now : Z) : FeedItem :=
  mkFeedItem "hn:1" "hackernews" "New AI agent released"
    "https://example.com/agent" (Some "") None
    (Some 200%float) (Some 50%float)
    (DateMs (now - 3600000)) (DateMs now) None.

(** The specification's second example: a funding post from a general
    news feed, published [age] milliseconds before [now]. *)
Definition funding_post (now age : Z) : FeedItem :=
  mkFeedItem "rss:techcrunch:9" "rss:techcrunch" "Acme raises Series B"
    "https://example.com/acme" None None None None
    (DateMs (now - age)) (DateMs now) None.

(** An RSS item whose [pubDate] could not be parsed: [rss.ts] builds
    [published_at] with [new Date(item.pubDate)], an invalid date. *)
Definition undated_item : FeedItem :=
  mkFeedItem "rss:blog:1" "rss:blog" "Weekly notes" "https://example.com/1"
    (Some "notes") None None None
    InvalidDate (DateMs 1700000000000) None.

(** A table of three rows. *)
Definition row_a : Row :=
  mkRow "hn:1" "hackernews" "abc" "https://example.com/a"
    None None None None 10 10 5%float.
Definition row_b : Row :=
  mkRow "rss:blog:7" "rss:blog" "Percentages" "https://example.com/b"
    (Some "a 100 percent gain") None None None 20 10 5%float.
Definition row_c : Row :=
  mkRow "hn:2" "hackernews" "q" "https://example.com/c"
    None None None None 5 10 7.5%float.
Definition sample_table : Table := [row_a; row_b; row_c].

(** Two writes of the item "hn:1" that differ in every other field. *)
Definition first_write : FeedItem :=
  mkFeedItem "hn:1" "hackernews" "First title" "https://example.com/1"
    (Some "old text") (Some "ann") (Some 10%float) (Some 2%float)
    (DateMs 1700000000000) (DateMs 1700000100000) (Some 42%float).
Definition second_write : FeedItem :=
  mkFeedItem "hn:1" "hackernews:best" "Second title" "https://example.com/2"
    None None (Some 0%float) (Some 3%float)
    (DateMs 1700000005999) (DateMs 1700000200000) (Some 17.5%float).

(** Three registrations: the second repeats the name of the first, the
    third its URL. *)
Definition feed_one : RSSFeedConfig :=
  mkRSSFeedConfig "https://one.example/feed.xml" "news" None.
Definition feed_two : RSSFeedConfig :=
  mkRSSFeedConfig "https://two.example/rss" "news" None.
Definition feed_three : RSSFeedConfig :=
  mkRSSFeedConfig "https://one.example/feed.xml" "mirror" None.

(** What a feed named [title_] delivers: one item that can be stored. *)
Definition healthy_item (title_ : string) : FeedItem :=
  mkFeedItem ("rss:" ++ title_)%string "rss:blog" title_ "https://example.com"
    None None None None (DateMs 1700000000000) (DateMs 1700000100000)
    (Some 80%float).

(** A configuration with the feeds "alpha", "beta" and "gamma". *)
Definition three_feeds : ConfigManager :=
  mkConfigManager
    (mkFeedConfig
       [ mkRSSFeedConfig "https://a.example/rss" "alpha" None;
         mkRSSFeedConfig "https://b.example/rss" "beta" None;
         mkRSSFeedConfig "https://c.example/rss" "gamma" None ])
    None.

(** The item tracker answers; of the three feeds, "beta" times out. *)
Definition beta_down : Network :=
  mkNetwork
    (Ok [example_item 1700000000000])
    (fun name _ =>
       if String.eqb name "beta"
       then Throw (new_Error "Request timed out after 10000ms")
       else Ok [healthy_item name]).

(** Every feed answers; the item tracker does not. *)
Definition tracker_down : Network :=
  mkNetwork
    (Throw (mkError "TypeError" "fetch failed"))
    (fun name _ => Ok [healthy_item name]).

(* ================================================================== *)
(** * Facts about numbers and strings *)
(* ================================================================== *)

Section NumberFacts.

Local Open Scope float_scope.

Lemma ltb_leb (x y : float) : (x <? y) = true -> (x <=? y) = true.
Proof.
  rewrite FloatAxioms.ltb_spec, FloatAxioms.leb_spec. unfold SFltb, SFleb.
  destruct (SFcompare (Prim2SF x) (Prim2SF y)) as [[ | | ] | ];
    intro H; try reflexivity; discriminate H.
Qed.

(** [Math.max(0, x)] is [NaN] exactly when [x] is, and is otherwise at
    least 0. *)
Lemma Math_max_0_nan (x : float) : is_nan (Math_max 0 x) = is_nan x.
Proof.
  unfold Math_max. change (is_nan 0) with false. cbn [orb].
  destruct (is_nan x) eqn:Hx; [reflexivity|].
  destruct (0 <? x); [exact Hx|].
  destruct (x <? 0); [reflexivity|].
  reflexivity.
Qed.

Lemma Math_max_0_nonneg (x : float) :
  is_nan x = false -> (0 <=? Math_max 0 x) = true.
Proof.
  intro Hx. unfold Math_max. change (is_nan 0) with false. cbn [orb].
  rewrite Hx.
  destruct (0 <? x) eqn:Hlt; [apply ltb_leb, Hlt|].
  destruct (x <? 0); reflexivity.
Qed.

(** [NaN] is contagious: an operation with a [NaN] operand gives [NaN],
    and no comparison with [NaN] holds. *)
Lemma is_NaN_nan : is_NaN nan.
Proof. reflexivity. Qed.

Lemma is_NaN_is_nan (x : float) : is_NaN x -> is_nan x = true.
Proof.
  unfold is_NaN, is_nan. intro H. rewrite FloatAxioms.eqb_spec, H. reflexivity.
Qed.

Lemma is_NaN_add_l (x y : float) : is_NaN x -> is_NaN (x + y).
Proof. unfold is_NaN. intro H. rewrite FloatAxioms.add_spec, H. reflexivity. Qed.

Lemma is_NaN_add_r (x y : float) : is_NaN y -> is_NaN (x + y).
Proof.
  unfold is_NaN. intro H. rewrite FloatAxioms.add_spec, H.
  now destruct (Prim2SF x).
Qed.

Lemma is_NaN_sub_r (x y : float) : is_NaN y -> is_NaN (x - y).
Proof.
  unfold is_NaN. intro H. rewrite FloatAxioms.sub_spec, H.
  now destruct (Prim2SF x).
Qed.

Lemma is_NaN_div_l (x y : float) : is_NaN x -> is_NaN (x / y).
Proof. unfold is_NaN. intro H. rewrite FloatAxioms.div_spec, H. reflexivity. Qed.

Lemma Math_max_NaN (x y : float) : is_NaN y -> Math_max x y = nan.
Proof.
  intro H. unfold Math_max. rewrite (is_NaN_is_nan y H).
  now rewrite orb_true_r.
Qed.

Lemma leb_nan (x : float) : (x <=? nan) = false.
Proof.
  rewrite FloatAxioms.leb_spec. change (Prim2SF nan) with S754_nan.
  unfold SFleb. now destruct (Prim2SF x).
Qed.

End NumberFacts.

(* ================================================================== *)
(** * The scoring engine *)
(* ================================================================== *)

Section RankingFacts.

Local Open Scope float_scope.

(** The loop with [break] adds the weight once when some keyword of the list
    occurs, and nothing otherwise. *)
Lemma scanKeywords_existsb (text : string) (kws : list string) (w s : float) :
  scanKeywords text kws w s =
  if existsb (fun keyword => includes text (toLowerCase keyword)) kws
  then s + w else s.
Proof.
  induction kws as [|k kws IH]; cbn [scanKeywords existsb].
  - reflexivity.
  - destruct (includes text (toLowerCase k)); [reflexivity | exact IH].
Qed.

(** The first keyword that occurs decides: whatever follows it in the list
    is never looked at. *)
Lemma scanKeywords_first_hit (text : string) (before after : list string)
    (k : string) (w s : float) :
  existsb (fun keyword => includes text (toLowerCase keyword)) before = false ->
  includes text (toLowerCase k) = true ->
  scanKeywords text (before ++ k :: after) w s = s + w.
Proof.
  intros Hb Hk. induction before as [|b before IH]; cbn [app scanKeywords].
  - now rewrite Hk.
  - cbn [existsb] in Hb. apply orb_false_iff in Hb as [Hb1 Hb2].
    rewrite Hb1. exact (IH Hb2).
Qed.

Lemma scanCategories_cons (text : string) (c : KeywordCategory)
    (cs : list KeywordCategory) (s : float) :
  scanCategories text (c :: cs) s =
  scanCategories text cs (if matched text c then s + weight c else s).
Proof.
  unfold scanCategories. cbn [fold_left].
  now rewrite scanKeywords_existsb.
Qed.

Lemma scanCategories_nil (text : string) (s : float) :
  scanCategories text [] s = s.
Proof. reflexivity. Qed.

(** The score is a maximum with 0, so it is [NaN] or at least 0. *)
Lemma calculateRankScore_nan_or_nonneg (now : Z) (item : FeedItem) :
  is_nan (calculateRankScore now item) = true
  \/ (0 <=? calculateRankScore now item) = true.
Proof.
  unfold calculateRankScore.
  set (total := _ + _ + _ + _).
  destruct (is_nan total) eqn:Hn.
  - left. now rewrite Math_max_0_nan.
  - right. now apply Math_max_0_nonneg.
Qed.

(** With an invalid [published_at] the recency component is [NaN], and
    the maximum with 0 does not remove it. *)
Lemma invalid_date_score (now : Z) (item : FeedItem) :
  published_at item = InvalidDate -> calculateRankScore now item = nan.
Proof.
  intro H. unfold calculateRankScore. apply Math_max_NaN.
  apply is_NaN_add_l, is_NaN_add_r.
  unfold calculateRecencyScore. rewrite H. cbn [getTime].
  rewrite Math_max_NaN; [exact is_NaN_nan|].
  apply is_NaN_sub_r, is_NaN_div_l, is_NaN_sub_r, is_NaN_nan.
Qed.

(** A fresh funding post scores 100 - 40 - 10 = 50; one that is five days
    old sums to -50 and is clamped to 0. *)
Example funding_post_fresh :
  calculateRankScore 1700000000000 (funding_post 1700000000000 0) = 50.
Proof. vm_compute. reflexivity. Qed.

Example funding_post_old :
  calculateKeywordScore (funding_post 1700000000000 432000000) = -40
  /\ calculateRecencyScore 1700000000000 (funding_post 1700000000000 432000000)
     = 0
  /\ calculateRankScore 1700000000000 (funding_post 1700000000000 432000000)
     = 0.
Proof. vm_compute. repeat split. Qed.

End RankingFacts.

Section RankingClaims.

Local Open Scope float_scope.

(** C2, as stated, fails: for the example item (title "New AI agent
    released", empty content, 200 points, 50 comments, published one hour
    before scoring, source "hackernews") the keyword component is 50, not
    30, because "released" contains the keyword "release" of the practical
    content category; the total is 191.5, which is 20 away from 171.5. *)
Lemma C2_example_keyword_is_not_30 :
  let item := example_item 1700000000000 in
  calculateKeywordScore item = 50
  /\ (calculateKeywordScore item =? 30) = false
  /\ calculateRankScore 1700000000000 item = 191.5
  /\ (abs (calculateRankScore 1700000000000 item - 171.5) <? 1) = false.
Proof. vm_compute. repeat split. Qed.

(** C2, amended: whenever the elapsed time between [published_at] and the
    scoring time computes to exactly one hour, the example item scores
    keyword 50 (30 for "agent" plus 20 for "release"), engagement 22.5,
    recency 99 and source 20, for a total of 191.5. *)
Theorem C2_example_score (now : Z) :
  number_of_Z now - number_of_Z (now - 3600000) = 3600000 ->
  let item := example_item now in
  matched (scoringText item) aiTechniques = true
  /\ matched (scoringText item) practicalContent = true
  /\ calculateKeywordScore item = 50
  /\ calculateEngagementScore item = 22.5
  /\ calculateRecencyScore now item = 99
  /\ calculateSourceScore item = 20
  /\ calculateRankScore now item = 191.5.
Proof.
  intro Hage. cbv zeta.
  assert (Hrec : calculateRecencyScore now (example_item now) = 99).
  { unfold calculateRecencyScore, example_item, published_at, getTime.
    rewrite Hage. vm_compute. reflexivity. }
  assert (Hkw : calculateKeywordScore (example_item now) = 50)
    by (vm_compute; reflexivity).
  assert (Heng : calculateEngagementScore (example_item now) = 22.5)
    by (vm_compute; reflexivity).
  assert (Hsrc : calculateSourceScore (example_item now) = 20)
    by (vm_compute; reflexivity).
  split; [vm_compute; reflexivity|].
  split; [vm_compute; reflexivity|].
  split; [exact Hkw|]. split; [exact Heng|].
  split; [exact Hrec|]. split; [exact Hsrc|].
  unfold calculateRankScore. rewrite Hkw, Heng, Hrec, Hsrc.
  vm_compute. reflexivity.
Qed.

Lemma C2_example_score_witness :
  let now := 1700000000000%Z in
  let item := example_item now in
  calculateKeywordScore item = 50
  /\ calculateRankScore now item = 191.5.
Proof.
  cbv zeta.
  pose proof (C2_example_score 1700000000000 eq_refl) as H.
  cbv zeta in H.
  destruct H as (_ & _ & Hk & _ & _ & _ & Ht).
  split; [exact Hk | exact Ht].
Defined.

(** C3 fails on the code: for every item whose [published_at] is an
    invalid date, whatever its other fields and the scoring time, the
    recency component is [NaN], the sum is [NaN], and [Math.max(0, NaN)] is
    [NaN], which is not greater than or equal to 0; so it is for the RSS
    item whose [pubDate] could not be parsed. *)
Theorem C3_invalid_date_scores_NaN (now : Z) (i s t u : string)
    (c a : option string) (p k r : option float) (cached : Date) :
  let item := mkFeedItem i s t u c a p k InvalidDate cached r in
  calculateRankScore now item = nan
  /\ (0 <=? calculateRankScore now item) = false
  /\ calculateRankScore 1700000000000 undated_item = nan
  /\ (0 <=? calculateRankScore 1700000000000 undated_item) = false.
Proof.
  cbv zeta.
  rewrite (invalid_date_score now (mkFeedItem i s t u c a p k InvalidDate
                                     cached r) eq_refl).
  rewrite (invalid_date_score 1700000000000 undated_item eq_refl).
  repeat split; apply leb_nan.
Qed.

(** C4: the keyword component is the sum, over the six categories, of the
    category's weight when at least one of its keywords occurs in the
    lower-cased text [title + " " + content] and of nothing otherwise;
    inside a category the scan stops at the first keyword that occurs, so
    the keywords after it add nothing. *)
Theorem C4_keyword_score_once_per_category (item : FeedItem) :
  let text :=
    toLowerCase (title item ++ " " ++
                 match content item with Some c => c | None => "" end)%string in
  let once (c : KeywordCategory) (w : Z) : Z :=
    if matched text c then w else 0%Z in
  calculateKeywordScore item =
    number_of_Z (once tools 50 + once aiTechniques 30
                 + once securityTechniques 30 + once practicalContent 20
                 + once funding (-40) + once genericHype (-20))%Z
  /\ (forall (c : KeywordCategory) (s : float),
        scanKeywords text (keywords c) (weight c) s =
        if matched text c then s + weight c else s)
  /\ (forall (before after : list string) (k : string) (w s : float),
        scanKeywords text (before ++ k :: after) w s =
        if existsb (fun kw => includes text (toLowerCase kw)) before then s + w
        else if includes text (toLowerCase k) then s + w
        else scanKeywords text after w s).
Proof.
  cbv zeta. split; [|split].
  - unfold calculateKeywordScore, BOOST_KEYWORDS, PENALTY_KEYWORDS.
    change (scoringText item) with
      (toLowerCase (title item ++ " " ++
                    match content item with Some c => c | None => "" end)%string).
    set (text := toLowerCase _).
    rewrite !scanCategories_cons, !scanCategories_nil.
    destruct (matched text tools), (matched text aiTechniques),
      (matched text securityTechniques), (matched text practicalContent),
      (matched text funding), (matched text genericHype);
      vm_compute; reflexivity.
  - intros c s. apply scanKeywords_existsb.
  - intros before after k w s.
    rewrite scanKeywords_existsb, existsb_app. cbn [existsb].
    destruct (existsb _ before); [reflexivity|]. cbn [orb].
    destruct (includes _ (toLowerCase k)); [reflexivity|]. cbn [orb].
    now rewrite scanKeywords_existsb.
Qed.

End RankingClaims.

(* ================================================================== *)
(** * Ordering of REAL values *)
(* ================================================================== *)

Section FloatOrder.

Local Open Scope float_scope.

Lemma SFcompare_antisym (a b : spec_float) :
  SFcompare b a = option_map CompOpp (SFcompare a b).
Proof.
  destruct a as [sa|sa| |sa ma ea], b as [sb|sb| |sb mb eb];
    cbn [SFcompare option_map]; try reflexivity;
    try (destruct sa; reflexivity); try (destruct sb; reflexivity);
    try (destruct sa, sb; reflexivity).
  destruct sa, sb; try reflexivity; f_equal;
    rewrite (Z.compare_antisym ea eb);
    destruct (ea ?= eb)%Z; cbn [CompOpp]; try reflexivity;
    rewrite (Pos.compare_cont_antisym ma mb Eq); reflexivity.
Qed.

Lemma not_nan_compare (x y : float) :
  is_nan x = false -> is_nan y = false ->
  exists c, SFcompare (Prim2SF x) (Prim2SF y) = Some c.
Proof.
  unfold is_nan. rewrite !FloatAxioms.eqb_spec. unfold SFeqb.
  intros Hx Hy.
  destruct (Prim2SF x) as [sx|sx| |sx mx ex] eqn:Ex;
    destruct (Prim2SF y) as [sy|sy| |sy my ey] eqn:Ey;
    cbn [SFcompare] in *; try discriminate; eauto.
Qed.

(** Two values that are not [NaN] are ordered one way or the other, or
    equal. *)
Lemma float_trichotomy (x y : float) :
  is_nan x = false -> is_nan y = false ->
  (y <? x) = false -> (x <? y) = true \/ ((x =? y) = true /\ (y =? x) = true).
Proof.
  intros Hx Hy.
  destruct (not_nan_compare x y Hx Hy) as [c Hc].
  rewrite !FloatAxioms.ltb_spec, !FloatAxioms.eqb_spec.
  unfold SFltb, SFeqb.
  rewrite (SFcompare_antisym (Prim2SF x) (Prim2SF y)), Hc.
  destruct c; cbn [option_map CompOpp]; intro H;
    try discriminate H; auto.
Qed.

End FloatOrder.

(* ================================================================== *)
(** * The cache store *)
(* ================================================================== *)

Section DatabaseFacts.

Local Open Scope list_scope.

Lemma order_by_total (a b : Row) :
  is_nan (row_rank_score a) = false -> is_nan (row_rank_score b) = false ->
  order_by a b = false -> order_by b a = true.
Proof.
  intros Ha Hb. unfold order_by. intro H.
  apply orb_false_iff in H as [Hlt Heq].
  destruct (float_trichotomy _ _ Ha Hb Hlt) as [Hlt' | [He1 He2]].
  - now rewrite Hlt'.
  - rewrite He1 in Heq. cbn [andb] in Heq.
    rewrite He2. cbn [andb]. apply orb_true_iff. right.
    apply Z.leb_le. apply Z.leb_gt in Heq. lia.
Qed.

Lemma insert_sorted_perm (r : Row) (l : list Row) :
  Permutation (insert_sorted r l) (r :: l).
Proof.
  induction l as [|x l IH]; cbn [insert_sorted].
  - apply Permutation_refl.
  - destruct (order_by r x).
    + apply Permutation_refl.
    + eapply perm_trans; [apply perm_skip, IH | apply perm_swap].
Qed.

Lemma sort_rows_perm (l : list Row) : Permutation (sort_rows l) l.
Proof.
  induction l as [|x l IH]; cbn [sort_rows fold_right].
  - apply perm_nil.
  - eapply perm_trans; [apply insert_sorted_perm | apply perm_skip, IH].
Qed.

Lemma insert_sorted_hd (r x : Row) (l : list Row) :
  ordered x r -> HdRel ordered x l -> HdRel ordered x (insert_sorted r l).
Proof.
  intros Hxr Hhd. destruct l as [|y l]; cbn [insert_sorted].
  - now constructor.
  - destruct (order_by r y); constructor; [exact Hxr|].
    now inversion Hhd.
Qed.

Lemma insert_sorted_sorted (r : Row) (l : list Row) :
  is_nan (row_rank_score r) = false -> valid_scores l ->
  Sorted ordered l -> Sorted ordered (insert_sorted r l).
Proof.
  intros Hr Hl Hs. induction l as [|x l IH]; cbn [insert_sorted].
  - repeat constructor.
  - destruct (order_by r x) eqn:Hrx.
    + constructor; [exact Hs | now constructor].
    + inversion Hs as [|? ? Hs' Hhd]; subst.
      inversion Hl as [|? ? Hx Hl']; subst.
      constructor; [now apply IH|].
      apply insert_sorted_hd; [|exact Hhd].
      now apply order_by_total.
Qed.

Lemma valid_scores_perm (l l' : list Row) :
  Permutation l l' -> valid_scores l -> valid_scores l'.
Proof. intros Hp. unfold valid_scores. now apply Permutation_Forall. Qed.

Lemma sort_rows_sorted (l : list Row) :
  valid_scores l -> Sorted ordered (sort_rows l).
Proof.
  intro Hl. induction l as [|x l IH]; cbn [sort_rows fold_right].
  - constructor.
  - inversion Hl as [|? ? Hx Hl']; subst.
    apply insert_sorted_sorted; [exact Hx | | now apply IH].
    apply (valid_scores_perm l); [|exact Hl'].
    apply Permutation_sym, sort_rows_perm.
Qed.

Lemma valid_scores_filter (f : Row -> bool) (l : list Row) :
  valid_scores l -> valid_scores (filter f l).
Proof.
  unfold valid_scores. rewrite !Forall_forall. intros H r Hr.
  apply filter_In in Hr as [Hr _]. now apply H.
Qed.

Lemma Sorted_firstn (n : nat) (l : list Row) :
  Sorted ordered l -> Sorted ordered (firstn n l).
Proof.
  revert l. induction n as [|n IH]; intros l Hs; cbn [firstn].
  - constructor.
  - destruct l as [|x l]; [constructor|].
    inversion Hs as [|? ? Hs' Hhd]; subst.
    constructor; [now apply IH|].
    destruct l as [|y l]; destruct n; cbn [firstn]; constructor.
    now inversion Hhd.
Qed.


(** The WHERE clause for given, truthy predicates. *)
Lemma where_clause_given (s : string) (t : Z) (limit : option Z) (r : Row) :
  s <> ""%string ->
  where_clause (mkOptions (Some s) limit (Some (DateMs t))) r = true
  <-> row_source r = s /\ t / 1000 <= row_published_at r.
Proof.
  intro Hs. unfold where_clause, since_matches. cbn.
  destruct s as [|c s]; [contradiction|].
  rewrite andb_true_iff, String.eqb_eq, Z.leb_le. reflexivity.
Qed.

Lemma where_clause_none (limit : option Z) (r : Row) :
  where_clause (mkOptions None limit None) r = true.
Proof. reflexivity. Qed.

End DatabaseFacts.

Section SearchFacts.




End SearchFacts.

Section UpsertFacts.

Local Open Scope list_scope.

Lemma row_id_bind_row (item : FeedItem) (r : Row) :
  bind_row item = Ok r -> row_id r = id item.
Proof.
  unfold bind_row, epoch_seconds.
  destruct (published_at item), (cached_at item); cbn [bind];
    try discriminate.
  intro H. injection H as <-. reflexivity.
Qed.

(** The bound row is made of the fields of the item, and of nothing
    else. *)
Lemma bind_row_fields (item : FeedItem) (r : Row) :
  bind_row item = Ok r ->
  exists published cached,
    published_at item = DateMs published /\ cached_at item = DateMs cached
    /\ r = mkRow (id item) (source item) (title item) (url item)
             (string_or_null (content item)) (string_or_null (author item))
             (number_or_null (points item)) (number_or_null (comments item))
             (published / 1000) (cached / 1000)
             (number_or_zero (rank_score item)).
Proof.
  unfold bind_row, epoch_seconds.
  destruct (published_at item) as [|p], (cached_at item) as [|c];
    cbn [bind]; try discriminate.
  intro H. injection H as <-. exists p, c. repeat split.
Qed.

Lemma number_or_zero_not_nan (n : option float) :
  is_nan (number_or_zero n) = false.
Proof.
  destruct n as [x|]; cbn [number_or_zero]; [|reflexivity].
  unfold truthy. destruct (is_nan x) eqn:Hx; cbn [negb andb]; [reflexivity|].
  destruct (negb _); [exact Hx | reflexivity].
Qed.

Lemma rank_score_bind_row (item : FeedItem) (r : Row) :
  bind_row item = Ok r -> is_nan (row_rank_score r) = false.
Proof.
  unfold bind_row, epoch_seconds.
  destruct (published_at item), (cached_at item); cbn [bind];
    try discriminate.
  intro H. injection H as <-. apply number_or_zero_not_nan.
Qed.

(** After [INSERT OR REPLACE] the only row with the new row's key is the
    new row. *)
Lemma insert_or_replace_lookup (r : Row) (db : Table) :
  filter (fun x => String.eqb (row_id x) (row_id r)) (insert_or_replace r db)
  = [r].
Proof.
  unfold insert_or_replace. rewrite filter_app. cbn [filter].
  rewrite String.eqb_refl.
  replace (filter _ (filter _ db)) with (@nil Row); [reflexivity|].
  symmetry. induction db as [|x db IH]; [reflexivity|].
  cbn [filter]. destruct (String.eqb (row_id x) (row_id r)) eqn:E;
    cbn [negb filter]; [exact IH|]. now rewrite E.
Qed.

Lemma insert_or_replace_ids (r : Row) (db : Table) :
  map row_id (insert_or_replace r db) =
  filter (fun i => negb (String.eqb i (row_id r))) (map row_id db)
  ++ [row_id r].
Proof.
  unfold insert_or_replace. rewrite map_app. f_equal.
  induction db as [|x db IH]; [reflexivity|].
  cbn [filter map]. destruct (String.eqb (row_id x) (row_id r));
    cbn [negb map]; now rewrite IH.
Qed.

Lemma insert_or_replace_unique (r : Row) (db : Table) :
  unique_ids db -> unique_ids (insert_or_replace r db).
Proof.
  unfold unique_ids. rewrite insert_or_replace_ids. intro Hd.
  apply NoDup_app_remove_l with (l := @nil string).
  apply Permutation_NoDup with
    (l := row_id r :: filter (fun i => negb (String.eqb i (row_id r)))
                             (map row_id db)).
  - cbn [app]. apply Permutation_cons_append.
  - constructor; [|now apply NoDup_filter].
    rewrite filter_In. intros [_ H]. now rewrite String.eqb_refl in H.
Qed.

Lemma insert_or_replace_count (r : Row) (db : Table) :
  count_occ string_dec (map row_id (insert_or_replace r db)) (row_id r) = 1%nat.
Proof.
  rewrite insert_or_replace_ids, count_occ_app. cbn [count_occ].
  destruct (string_dec (row_id r) (row_id r)) as [_|N]; [|contradiction].
  rewrite Nat.add_1_r. f_equal. apply count_occ_not_In.
  rewrite filter_In. intros [_ H]. now rewrite String.eqb_refl in H.
Qed.

(** Replacing a row that is already the only one with its key leaves the
    number of rows unchanged. *)
Lemma insert_or_replace_again (r r' : Row) (db : Table) :
  row_id r = row_id r' ->
  List.length (insert_or_replace r' (insert_or_replace r db))
  = List.length (insert_or_replace r db).
Proof.
  intro Hid. unfold insert_or_replace at 1.
  rewrite length_app. cbn [List.length].
  unfold insert_or_replace. rewrite filter_app, !length_app. cbn [filter].
  rewrite Hid, String.eqb_refl. cbn [negb List.length].
  rewrite Nat.add_0_r. f_equal.
  f_equal. induction db as [|x db IH]; [reflexivity|].
  cbn [filter]. destruct (String.eqb (row_id x) (row_id r')) eqn:E;
    cbn [negb filter]; [exact IH|]. rewrite E. cbn [negb]. now f_equal.
Qed.

Lemma saveFeedItem_unique (item : FeedItem) (db db' : Table) :
  unique_ids db -> saveFeedItem item db = Ok db' -> unique_ids db'.
Proof.
  unfold saveFeedItem. destruct (bind_row item) as [r|m]; cbn [bind];
    [|discriminate].
  intros Hd H. injection H as <-. now apply insert_or_replace_unique.
Qed.

Lemma saveFeedItems_unique (items : list FeedItem) (db db' : Table) :
  unique_ids db -> saveFeedItems items db = Ok db' -> unique_ids db'.
Proof.
  revert db. induction items as [|item items IH]; intros db Hd;
    cbn [saveFeedItems].
  - intro H. injection H as <-. exact Hd.
  - destruct (saveFeedItem item db) as [db1|m] eqn:E; cbn [bind];
      [|discriminate].
    apply IH. exact (saveFeedItem_unique _ _ _ Hd E).
Qed.

Lemma unique_ids_filter (f : Row -> bool) (db : Table) :
  unique_ids db -> unique_ids (filter f db).
Proof.
  unfold unique_ids. induction db as [|x db IH]; cbn [map filter]; [auto|].
  intro Hd. inversion Hd as [|? ? Hx Hd']; subst.
  destruct (f x); cbn [map]; [|now apply IH].
  constructor; [|now apply IH].
  intro Hin. apply Hx. apply in_map_iff in Hin as (y & Hy & Hin).
  apply filter_In in Hin as [Hin _]. apply in_map_iff. eauto.
Qed.

Lemma clearOldItems_unique (days : option Z) (now : Z) (db : Table) :
  unique_ids db -> unique_ids (snd (clearOldItems days now db)).
Proof. intro Hd. unfold clearOldItems. cbn [snd]. now apply unique_ids_filter. Qed.

(** Saving keeps [NaN] out of the [rank_score] column. *)
Lemma saveFeedItem_valid_scores (item : FeedItem) (db db' : Table) :
  valid_scores db -> saveFeedItem item db = Ok db' -> valid_scores db'.
Proof.
  unfold saveFeedItem. destruct (bind_row item) as [r|m] eqn:E; cbn [bind];
    [|discriminate].
  intros Hv H. injection H as <-. unfold insert_or_replace, valid_scores.
  apply Forall_app. split; [now apply valid_scores_filter|].
  constructor; [|constructor]. exact (rank_score_bind_row _ _ E).
Qed.

End UpsertFacts.

Section DatabaseClaims.

Local Open Scope list_scope.

(** C5 fails on the code for a limit of 0 (and for an empty source
    string): [if (options.limit)] treats 0 as no limit, so the query
    returns every selected row where the claim allows at most 0 of them,
    while the sibling [searchFeedItems] passes the same limit on to
    [LIMIT ?] and returns nothing. *)
Theorem C5_limit_zero_is_no_limit :
  (forall (source : option string) (since : option Date) (db : Table),
     getFeedItems (mkOptions source (Some 0) since) db
     = getFeedItems (mkOptions source None since) db)
  /\ map (fun item : FeedItem => id item)
         (getFeedItems (mkOptions None (Some 0) None) sample_table)
     = ["hn:2"; "rss:blog:7"; "hn:1"]%string
  /\ map (fun item : FeedItem => id item)
         (getFeedItems (mkOptions (Some ""%string) None None) sample_table)
     = ["hn:2"; "rss:blog:7"; "hn:1"]%string
  /\ searchFeedItems "a" (Some 0) sample_table = [].
Proof. repeat split. Qed.

(** C6: writing two items with the same [id] one after the other leaves
    exactly one row with that [id], and it is the row bound from the second
    item alone, field by field; the number of rows does not grow with the
    second write, the [id] occurs once among the keys, [getAllSources]
    lists no source twice, and [saveFeedItem], [saveFeedItems] and
    [clearOldItems] each keep the keys of the table pairwise distinct. *)
Theorem C6_upsert_same_id_once (db : Table) (a b : FeedItem) (ra rb : Row) :
  id a = id b -> bind_row a = Ok ra -> bind_row b = Ok rb ->
  exists db1 db2,
    saveFeedItem a db = Ok db1
    /\ saveFeedItem b db1 = Ok db2
    /\ filter (fun r => String.eqb (row_id r) (id b)) db2 = [rb]
    /\ (exists published cached,
          published_at b = DateMs published /\ cached_at b = DateMs cached
          /\ rb = mkRow (id b) (source b) (title b) (url b)
                    (string_or_null (content b)) (string_or_null (author b))
                    (number_or_null (points b)) (number_or_null (comments b))
                    (published / 1000) (cached / 1000)
                    (number_or_zero (rank_score b)))
    /\ count_occ string_dec (map row_id db2) (id b) = 1%nat
    /\ List.length db2 = List.length db1
    /\ NoDup (Database.getAllSources db2)
    /\ (unique_ids db -> unique_ids db1 /\ unique_ids db2)
    /\ (forall item t t', unique_ids t -> saveFeedItem item t = Ok t' ->
                          unique_ids t')
    /\ (forall items t t', unique_ids t -> saveFeedItems items t = Ok t' ->
                           unique_ids t')
    /\ (forall days now t, unique_ids t ->
                           unique_ids (snd (clearOldItems days now t))).
Proof.
  intros Hid Ha Hb.
  pose proof (row_id_bind_row _ _ Ha) as Hra.
  pose proof (row_id_bind_row _ _ Hb) as Hrb.
  exists (insert_or_replace ra db),
         (insert_or_replace rb (insert_or_replace ra db)).
  unfold saveFeedItem. rewrite Ha, Hb. cbn [bind].
  split; [reflexivity|]. split; [reflexivity|].
  split; [rewrite <- Hrb; apply insert_or_replace_lookup|].
  split; [exact (bind_row_fields _ _ Hb)|].
  split; [rewrite <- Hrb; apply insert_or_replace_count|].
  split; [apply insert_or_replace_again; congruence|].
  split; [apply NoDup_nodup|].
  split; [intro Hd; split; repeat apply insert_or_replace_unique; exact Hd|].
  split; [exact saveFeedItem_unique|].
  split; [exact saveFeedItems_unique | exact clearOldItems_unique].
Qed.

Lemma C6_upsert_same_id_once_witness :
  exists db2,
    bind (saveFeedItem first_write sample_table) (saveFeedItem second_write)
    = Ok db2
    /\ map row_title
         (filter (fun r => String.eqb (row_id r) "hn:1") db2)
       = ["Second title"]%string
    /\ List.length db2 = 3%nat.
Proof.
  destruct (C6_upsert_same_id_once sample_table first_write second_write
              (mkRow "hn:1" "hackernews" "First title" "https://example.com/1"
                 (Some "old text"%string) (Some "ann"%string)
                 (Some 10%float) (Some 2%float)
                 1700000000 1700000100 42%float)
              (mkRow "hn:1" "hackernews:best" "Second title"
                 "https://example.com/2" None None None (Some 3%float)
                 1700000005 1700000200 17.5%float)
              eq_refl eq_refl eq_refl)
    as (db1 & db2 & H1 & H2 & Hrow & _ & _ & Hlen & _).
  exists db2. rewrite H1. cbn [bind]. split; [exact H2|].
  split.
  - change (id second_write) with "hn:1"%string in Hrow.
    rewrite Hrow. reflexivity.
  - rewrite Hlen. injection H1 as <-. reflexivity.
Defined.

(** C7: [clearOldItems(days)] removes exactly the rows whose [cached_at]
    (whole seconds) is below the current time in whole seconds minus
    [days] times 86400, whatever their [published_at]; it returns how many
    rows it removed; the rows that remain are the other rows of the table,
    unchanged and in their order; without an argument it keeps 7 days. *)
Theorem C7_clearOldItems_by_cached_at (days now : Z) (db : Table) :
  let cutoff := now / 1000 - days * 86400 in
  let removed := filter (fun r => row_cached_at r <? cutoff) db in
  let kept := snd (clearOldItems (Some days) now db) in
  (forall r, In r kept <-> In r db /\ cutoff <= row_cached_at r)
  /\ (forall r, In r removed <-> In r db /\ row_cached_at r < cutoff)
  /\ fst (clearOldItems (Some days) now db) = Z.of_nat (List.length removed)
  /\ (List.length db = List.length removed + List.length kept)%nat
  /\ Permutation db (removed ++ kept)
  /\ kept = filter (fun r => cutoff <=? row_cached_at r) db
  /\ clearOldItems None now db = clearOldItems (Some 7) now db.
Proof.
  cbv zeta. unfold clearOldItems. cbn [fst snd].
  replace (days * 24 * 60 * 60) with (days * 86400) by lia.
  set (cutoff := now / 1000 - days * 86400).
  assert (Hkept : filter (fun r => negb (row_cached_at r <? cutoff)) db
                  = filter (fun r => cutoff <=? row_cached_at r) db).
  { apply filter_ext. intro r. rewrite Z.ltb_antisym. now rewrite negb_involutive. }
  assert (Hperm : Permutation db
            (filter (fun r => row_cached_at r <? cutoff) db
             ++ filter (fun r => negb (row_cached_at r <? cutoff)) db)).
  { clear Hkept. induction db as [|x db IH]; cbn [filter]; [constructor|].
    destruct (row_cached_at x <? cutoff); cbn [negb app].
    - now constructor.
    - now apply Permutation_cons_app. }
  split; [|split; [|split; [|split; [|split; [|split]]]]].
  - intro r. rewrite filter_In, negb_true_iff, Z.ltb_ge. reflexivity.
  - intro r. rewrite filter_In, Z.ltb_lt. reflexivity.
  - reflexivity.
  - rewrite <- length_app. now apply Permutation_length.
  - exact Hperm.
  - exact Hkept.
  - reflexivity.
Qed.

(** C10: the search pattern is the query between two [%] signs, with
    nothing escaped, so [_] and [%] inside the query are wildcards: the
    query "a_c" finds the item titled "abc", and the query "0%g" finds the
    item whose content is "a 100 percent gain", although neither title nor
    content contains the query, in any letter case. *)
Theorem C10_search_wildcards_not_escaped :
  (forall query limit db r,
     In r (searchFeedRows query limit db) <->
     In r (sql_limit (match limit with Some n => n | None => 50 end)
             (sort_rows
                (filter
                   (fun r => like ("%" ++ query ++ "%")%string (row_title r)
                             || like_nullable ("%" ++ query ++ "%")%string
                                              (row_content r)) db))))
  /\ exists (query : string) (item : FeedItem),
       includes query "_" = true
       /\ In item (searchFeedItems query None sample_table)
       /\ includes (toLowerCase (title item)) (toLowerCase query) = false
       /\ content item = None
  /\ exists (query : string) (item : FeedItem) (text : string),
       includes query "%" = true
       /\ In item (searchFeedItems query None sample_table)
       /\ includes (toLowerCase (title item)) (toLowerCase query) = false
       /\ content item = Some text
       /\ includes (toLowerCase text) (toLowerCase query) = false.
Proof.
  split; [intros; reflexivity|].
  exists "a_c"%string, (item_of_row row_a).
  split; [reflexivity|]. split; [vm_compute; left; reflexivity|].
  split; [reflexivity|]. split; [reflexivity|].
  exists "0%g"%string, (item_of_row row_b), "a 100 percent gain"%string.
  split; [reflexivity|]. split; [vm_compute; left; reflexivity|].
  repeat split.
Qed.

End DatabaseClaims.

(* ================================================================== *)
(** * RSS feed registrations *)
(* ================================================================== *)

Section ConfigFacts.

Local Open Scope list_scope.

Lemma saveConfig_feeds (write : result unit) (c : ConfigManager) :
  getRSSFeeds (fst (saveConfig write c)) = getRSSFeeds c.
Proof. unfold saveConfig. now destruct write. Qed.

Lemma existsb_url_In (u : string) (feeds : list RSSFeedConfig) :
  existsb (fun f => String.eqb (feed_url f) u) feeds = true
  <-> In u (map feed_url feeds).
Proof.
  rewrite existsb_exists, in_map_iff. split.
  - intros (f & Hin & He). apply String.eqb_eq in He. eauto.
  - intros (f & He & Hin). exists f. split; [exact Hin|].
    now apply String.eqb_eq.
Qed.

Lemma addRSSFeed_distinct_urls (write : result unit) (feed : RSSFeedConfig)
    (c : ConfigManager) :
  distinct_urls c -> distinct_urls (fst (addRSSFeed write feed c)).
Proof.
  unfold distinct_urls, addRSSFeed. intro Hd.
  destruct (existsb _ _) eqn:E; cbn [fst]; [exact Hd|].
  rewrite saveConfig_feeds. unfold getRSSFeeds. cbn [config rss_feeds].
  rewrite map_app. cbn [map].
  apply NoDup_app_remove_l with (l := @nil string). cbn [app].
  apply Permutation_NoDup with
    (l := feed_url feed :: map feed_url (rss_feeds (config c))).
  - apply Permutation_cons_append.
  - constructor; [|exact Hd].
    intro Hin. apply existsb_url_In in Hin. congruence.
Qed.

Lemma removeRSSFeed_feeds (write : result unit) (name : string)
    (c : ConfigManager) :
  getRSSFeeds (fst (removeRSSFeed write name c)) =
  filter (fun f => negb (String.eqb (feed_name f) name)) (getRSSFeeds c).
Proof.
  unfold removeRSSFeed. cbn [config rss_feeds].
  destruct (_ <? _)%nat; [|reflexivity].
  unfold saveConfig. now destruct write.
Qed.

Lemma removeRSSFeed_distinct_urls (write : result unit) (name : string)
    (c : ConfigManager) :
  distinct_urls c -> distinct_urls (fst (removeRSSFeed write name c)).
Proof.
  unfold distinct_urls. rewrite removeRSSFeed_feeds.
  generalize (getRSSFeeds c). intros feeds.
  induction feeds as [|f feeds IH]; cbn [map filter]; [auto|].
  intro Hd. inversion Hd as [|? ? Hf Hd']; subst.
  destruct (negb _); cbn [map]; [|now apply IH].
  constructor; [|now apply IH].
  intro Hin. apply Hf. apply in_map_iff in Hin as (g & Hg & Hin).
  apply filter_In in Hin as [Hin _]. apply in_map_iff. eauto.
Qed.

End ConfigFacts.

Section ConfigClaims.

Local Open Scope list_scope.

(** C8: [addRSSFeed] with a URL that some registration already has throws
    the "already exists" error and leaves the list and the file as they
    were; with a new URL, and the file written, the registration is appended
    to the list and the file holds the new list. *)
Theorem C8_addRSSFeed_rejects_duplicate_url (write : result unit)
    (feed : RSSFeedConfig) (c : ConfigManager) :
  ((exists f, In f (getRSSFeeds c) /\ feed_url f = feed_url feed) ->
   addRSSFeed write feed c =
   (c, Throw (new_Error ("RSS feed with URL " ++ feed_url feed
                         ++ " already exists")%string)))
  /\ ((forall f, In f (getRSSFeeds c) -> feed_url f <> feed_url feed) ->
      write = Ok tt ->
      let feeds := mkFeedConfig (getRSSFeeds c ++ [feed]) in
      addRSSFeed write feed c = (mkConfigManager feeds (Some feeds), Ok tt)).
Proof.
  unfold addRSSFeed, getRSSFeeds. split.
  - intros (f & Hin & Hu).
    replace (existsb _ _) with true; [reflexivity|].
    symmetry. apply existsb_exists. exists f. split; [exact Hin|].
    now apply String.eqb_eq.
  - intros Hnew ->. cbv zeta.
    replace (existsb _ _) with false; [reflexivity|].
    symmetry. apply not_true_is_false. intro E.
    apply existsb_exists in E as (f & Hin & He).
    apply String.eqb_eq in He. exact (Hnew f Hin He).
Qed.

Lemma C8_addRSSFeed_rejects_duplicate_url_witness :
  let c := fst (addRSSFeed (Ok tt) feed_one emptyConfig) in
  addRSSFeed (Ok tt) feed_three c =
    (c, Throw (new_Error
                 "RSS feed with URL https://one.example/feed.xml already exists"))
  /\ addRSSFeed (Ok tt) feed_two c =
     (mkConfigManager (mkFeedConfig [feed_one; feed_two])
                      (Some (mkFeedConfig [feed_one; feed_two])), Ok tt).
Proof.
  cbv zeta. split.
  - apply (proj1 (C8_addRSSFeed_rejects_duplicate_url (Ok tt) feed_three
                    (fst (addRSSFeed (Ok tt) feed_one emptyConfig)))).
    exists feed_one. split; [left; reflexivity | reflexivity].
  - apply (proj2 (C8_addRSSFeed_rejects_duplicate_url (Ok tt) feed_two
                    (fst (addRSSFeed (Ok tt) feed_one emptyConfig)))).
    + intros f [<- | []]. discriminate.
    + reflexivity.
Defined.

(** C9, as stated, fails: two registrations with the same name and
    different URLs are both accepted, so names repeat in a list reached by
    two successful adds. *)
Lemma C9_names_can_repeat :
  exists c1 c2,
    addRSSFeed (Ok tt) feed_one emptyConfig = (c1, Ok tt)
    /\ addRSSFeed (Ok tt) feed_two c1 = (c2, Ok tt)
    /\ reachable c2
    /\ map feed_name (getRSSFeeds c2) = ["news"; "news"]%string
    /\ ~ NoDup (map feed_name (getRSSFeeds c2)).
Proof.
  eexists. eexists. split; [reflexivity|]. split; [reflexivity|].
  split.
  - apply (reachable_add (Ok tt) feed_two
             (fst (addRSSFeed (Ok tt) feed_one emptyConfig))).
    apply (reachable_add (Ok tt) feed_one emptyConfig). constructor.
  - split; [reflexivity|].
    intro Hd. inversion Hd as [|? ? Hnot _]; subst.
    apply Hnot. left. reflexivity.
Qed.

(** C9, amended: in every registration list reachable from the empty list
    by add and remove operations the URLs are pairwise distinct (names need
    not be). *)
Theorem C9_urls_pairwise_distinct (c : ConfigManager) :
  reachable c -> NoDup (map feed_url (getRSSFeeds c)).
Proof.
  intro Hr. change (distinct_urls c).
  induction Hr as [|write feed c _ IH|write name c _ IH].
  - constructor.
  - now apply addRSSFeed_distinct_urls.
  - now apply removeRSSFeed_distinct_urls.
Qed.

Lemma C9_urls_pairwise_distinct_witness :
  NoDup (map feed_url
           (getRSSFeeds
              (fst (addRSSFeed (Ok tt) feed_two
                      (fst (addRSSFeed (Ok tt) feed_one emptyConfig)))))).
Proof.
  apply C9_urls_pairwise_distinct.
  apply reachable_add. apply reachable_add. apply reachable_empty.
Defined.

End ConfigClaims.

(* ================================================================== *)
(** * Refreshing the cache *)
(* ================================================================== *)

Section ServerFacts.

Local Open Scope list_scope.

Variable net : Network.

Lemma bind_row_storable (item : FeedItem) :
  storable item = true -> exists r, bind_row item = Ok r.
Proof.
  unfold storable, bind_row, epoch_seconds.
  destruct (published_at item), (cached_at item); try discriminate.
  cbn [bind]. eauto.
Qed.

Lemma saveFeedItems_storable (items : list FeedItem) (db : Table) :
  forallb storable items = true -> exists db', saveFeedItems items db = Ok db'.
Proof.
  revert db. induction items as [|item items IH]; intros db H;
    cbn [saveFeedItems forallb] in *; [eauto|].
  apply andb_true_iff in H as [Hi Hr].
  destruct (bind_row_storable item Hi) as [r Er].
  unfold saveFeedItem. rewrite Er. cbn [bind]. now apply IH.
Qed.

(** Whether a batch is accepted, and the error when it is not, does not
    depend on what the table holds. *)
Lemma saveFeedItems_outcome (items : list FeedItem) (db1 db2 : Table) :
  match saveFeedItems items db1, saveFeedItems items db2 with
  | Ok _, Ok _ => True
  | Throw e1, Throw e2 => e1 = e2
  | _, _ => False
  end.
Proof.
  revert db1 db2. induction items as [|item items IH]; intros db1 db2;
    cbn [saveFeedItems]; [exact I|].
  unfold saveFeedItem. destruct (bind_row item) as [r|m]; cbn [bind];
    [apply IH | reflexivity].
Qed.

Lemma refreshFeed_line (feed : RSSFeedConfig) (db : Table) :
  snd (refreshFeed net feed db) = summary_line net feed.
Proof.
  unfold summary_line, refreshFeed.
  destruct (rssFetch net (feed_name feed) (feed_url feed)) as [items|m];
    cbn [bind]; [|reflexivity].
  pose proof (saveFeedItems_outcome items db []) as H.
  destruct (saveFeedItems items db), (saveFeedItems items []); cbn [bind snd];
    try reflexivity; try contradiction.
  now subst.
Qed.

Lemma summary_line_failed (feed : RSSFeedConfig) (e : Error) :
  rssFetch net (feed_name feed) (feed_url feed) = Throw e ->
  summary_line net feed =
  ("Failed to refresh " ++ feed_name feed ++ ": " ++ error_toString e)%string.
Proof. unfold summary_line, refreshFeed. now intros ->. Qed.

Lemma summary_line_refreshed (feed : RSSFeedConfig) (items : list FeedItem) :
  rssFetch net (feed_name feed) (feed_url feed) = Ok items ->
  forallb storable items = true ->
  summary_line net feed =
  ("Refreshed " ++ feed_name feed ++ ": "
   ++ show_nat (List.length items) ++ " items")%string.
Proof.
  unfold summary_line, refreshFeed. intros -> Hs. cbn [bind].
  destruct (saveFeedItems_storable items [] Hs) as [db' E].
  now rewrite E.
Qed.

(** The loop pushes one line per registration, in order. *)
Lemma refreshFeeds_results (feeds : list RSSFeedConfig) (db : Table)
    (results : list string) :
  snd (refreshFeeds net feeds db results)
  = results ++ map (summary_line net) feeds.
Proof.
  revert db results. induction feeds as [|feed feeds IH]; intros db results;
    cbn [refreshFeeds map].
  - now rewrite app_nil_r.
  - pose proof (refreshFeed_line feed db) as Hl.
    destruct (refreshFeed net feed db) as [db1 line]. cbn [snd] in Hl.
    rewrite IH, <- app_assoc, Hl. reflexivity.
Qed.

Lemma refreshFeed_unhealthy (feed : RSSFeedConfig) (db : Table) :
  healthy net feed = false -> fst (refreshFeed net feed db) = db.
Proof.
  unfold healthy, refreshFeed.
  destruct (rssFetch net (feed_name feed) (feed_url feed)) as [items|m];
    cbn [bind]; [|reflexivity].
  destruct (saveFeedItems items db) as [db'|m] eqn:E; cbn [bind fst];
    [|reflexivity].
  intro Hs. exfalso.
  assert (Hall : forall l t t', saveFeedItems l t = Ok t' ->
                                forallb storable l = true).
  { clear. induction l as [|x l IH]; intros t t'; cbn [saveFeedItems forallb];
      [reflexivity|].
    unfold saveFeedItem, bind_row, epoch_seconds, storable.
    destruct (published_at x), (cached_at x); cbn [bind]; try discriminate.
    cbn [andb]. apply IH. }
  rewrite (Hall _ _ _ E) in Hs. discriminate.
Qed.

(** The table after the loop is the table a loop over the healthy
    registrations alone would have produced. *)
Lemma refreshFeeds_table (feeds : list RSSFeedConfig) (db : Table)
    (r1 r2 : list string) :
  fst (refreshFeeds net feeds db r1) =
  fst (refreshFeeds net (filter (healthy net) feeds) db r2).
Proof.
  revert db r1 r2. induction feeds as [|feed feeds IH]; intros db r1 r2;
    cbn [refreshFeeds filter]; [reflexivity|].
  destruct (healthy net feed) eqn:Hh.
  - cbn [refreshFeeds]. destruct (refreshFeed net feed db) as [db1 line].
    apply IH.
  - pose proof (refreshFeed_unhealthy feed db Hh) as Hdb.
    destruct (refreshFeed net feed db) as [db1 line]. cbn [fst] in Hdb.
    subst db1. apply IH.
Qed.

Lemma insert_or_replace_keeps_ids (r : Row) (db : Table) (i : string) :
  In i (map row_id db) \/ i = row_id r ->
  In i (map row_id (insert_or_replace r db)).
Proof.
  rewrite insert_or_replace_ids, in_app_iff, filter_In. cbn [In].
  intros [Hin | ->]; [|now right; left].
  destruct (String.eqb i (row_id r)) eqn:E.
  - apply String.eqb_eq in E. right. left. now symmetry.
  - left. now split.
Qed.

(** A batch that is accepted leaves a row for each of its items, and
    removes no key. *)
Lemma saveFeedItems_ids (items : list FeedItem) (db db' : Table) (i : string) :
  saveFeedItems items db = Ok db' ->
  In i (map row_id db) \/ In i (map id items) ->
  In i (map row_id db').
Proof.
  revert db. induction items as [|item items IH]; intros db;
    cbn [saveFeedItems map In].
  - intro H. injection H as <-. now intros [H | []].
  - unfold saveFeedItem.
    destruct (bind_row item) as [r|m] eqn:Er; cbn [bind]; [|discriminate].
    intros Hs Hi. apply (IH _ Hs).
    destruct Hi as [Hi | [Hi | Hi]].
    + left. apply insert_or_replace_keeps_ids. now left.
    + left. apply insert_or_replace_keeps_ids. right.
      rewrite (row_id_bind_row _ _ Er). now symmetry.
    + now right.
Qed.

Lemma refreshFeed_ids (feed : RSSFeedConfig) (db : Table) (i : string) :
  In i (map row_id db) -> In i (map row_id (fst (refreshFeed net feed db))).
Proof.
  unfold refreshFeed.
  destruct (rssFetch net (feed_name feed) (feed_url feed)) as [items|m];
    cbn [bind]; [|trivial].
  destruct (saveFeedItems items db) as [db'|m] eqn:E; cbn [bind fst];
    [|trivial].
  intro Hi. apply (saveFeedItems_ids _ _ _ _ E). now left.
Qed.

Lemma refreshFeeds_keeps_ids (feeds : list RSSFeedConfig) (db : Table)
    (results : list string) (i : string) :
  In i (map row_id db) ->
  In i (map row_id (fst (refreshFeeds net feeds db results))).
Proof.
  revert db results. induction feeds as [|feed feeds IH]; intros db results;
    cbn [refreshFeeds]; [trivial|].
  intro Hi. pose proof (refreshFeed_ids feed db i Hi) as H1.
  destruct (refreshFeed net feed db) as [db1 line]. cbn [fst] in H1.
  now apply IH.
Qed.

(** Every item of a healthy registration has its row after the loop,
    whatever happened to the other registrations. *)
Lemma refreshFeeds_stores_healthy (feeds : list RSSFeedConfig) (db : Table)
    (results : list string) (feed : RSSFeedConfig) (items : list FeedItem)
    (item : FeedItem) :
  In feed feeds ->
  rssFetch net (feed_name feed) (feed_url feed) = Ok items ->
  forallb storable items = true ->
  In item items ->
  In (id item) (map row_id (fst (refreshFeeds net feeds db results))).
Proof.
  intros Hin Hf Hs Hit. revert db results.
  induction feeds as [|g feeds IH]; intros db results; [contradiction|].
  cbn [refreshFeeds]. destruct Hin as [-> | Hin].
  - assert (H1 : In (id item) (map row_id (fst (refreshFeed net feed db)))).
    { unfold refreshFeed. rewrite Hf. cbn [bind].
      destruct (saveFeedItems_storable items db Hs) as [db' E].
      rewrite E. cbn [bind fst].
      apply (saveFeedItems_ids _ _ _ _ E). right. now apply in_map. }
    destruct (refreshFeed net feed db) as [db1 line]. cbn [fst] in H1.
    now apply refreshFeeds_keeps_ids.
  - destruct (refreshFeed net g db) as [db1 line]. now apply IH.
Qed.

End ServerFacts.

Section ServerClaims.

Local Open Scope list_scope.

(** C1, as stated, fails for the item tracker: its fetch is outside the
    per-registration [try], so when it fails, with all three feeds
    answering, the call throws, nothing is recorded per source, and no feed
    is refreshed (the table is untouched). *)
Lemma C1_tracker_failure_aborts_refresh :
  handleRefreshCache tracker_down three_feeds None sample_table
  = (sample_table,
     Throw (new_Error "Failed to refresh cache: TypeError: fetch failed"))
  /\ forallb (healthy tracker_down) (getRSSFeeds three_feeds) = true.
Proof. split; reflexivity. Qed.

(** C1, amended: in a refresh of all sources, a failure of any RSS
    registration is caught and recorded as that registration's line of the
    summary, and does not abort the refresh of the others: once the item
    tracker has been fetched and stored, the call does not throw, the
    summary has one line per registration that depends on that
    registration alone, the table is the one the healthy registrations
    alone would have produced, and every item of a healthy registration
    has its row.  When the item tracker's fetch, or the storing of its
    items, fails, the whole call throws and the table is left as it
    was. *)
Theorem C1_rss_failures_are_isolated (net : Network) (cfg : ConfigManager)
    (source : option string) (db : Table) :
  absent source = true ->
  (forall e, hnFetch net = Throw e ->
     handleRefreshCache net cfg source db
     = (db, Throw (new_Error ("Failed to refresh cache: "
                              ++ error_toString e)%string)))
  /\ (forall hnItems e,
        hnFetch net = Ok hnItems -> saveFeedItems hnItems db = Throw e ->
        handleRefreshCache net cfg source db
        = (db, Throw (new_Error ("Failed to refresh cache: "
                                 ++ error_toString e)%string)))
  /\ (forall hnItems db0,
        hnFetch net = Ok hnItems -> saveFeedItems hnItems db = Ok db0 ->
        let feeds := getRSSFeeds cfg in
        let lines :=
          ("Refreshed Hacker News: "
           ++ show_nat (List.length hnItems) ++ " items")%string
          :: map (summary_line net) feeds in
        exists db',
          refreshSources net cfg source db = (db', Ok lines)
          /\ handleRefreshCache net cfg source db
             = (db', Ok (String.concat (String (ascii_of_nat 10) "") lines))
          /\ db' = fst (refreshFeeds net (filter (healthy net) feeds) db0 [])
          /\ (forall feed e,
                rssFetch net (feed_name feed) (feed_url feed) = Throw e ->
                summary_line net feed =
                ("Failed to refresh " ++ feed_name feed
                 ++ ": " ++ error_toString e)%string)
          /\ (forall feed items,
                In feed feeds ->
                rssFetch net (feed_name feed) (feed_url feed) = Ok items ->
                forallb storable items = true ->
                summary_line net feed =
                ("Refreshed " ++ feed_name feed ++ ": "
                 ++ show_nat (List.length items) ++ " items")%string
                /\ forall item, In item items ->
                                In (id item) (map row_id db'))).
Proof.
  intro Habs. split; [|split].
  - intros e He. unfold handleRefreshCache, refreshSources.
    rewrite Habs, He. reflexivity.
  - intros hnItems e Hhn Hsave. unfold handleRefreshCache, refreshSources.
    rewrite Habs, Hhn. cbn [orb bind]. rewrite Hsave. reflexivity.
  - intros hnItems db0 Hhn Hsave. cbv zeta.
    exists (fst (refreshFeeds net (getRSSFeeds cfg) db0
                   [("Refreshed Hacker News: "
                     ++ show_nat (List.length hnItems) ++ " items")%string])).
    assert (Hrun : refreshSources net cfg source db =
                   (fst (refreshFeeds net (getRSSFeeds cfg) db0
                           [("Refreshed Hacker News: "
                             ++ show_nat (List.length hnItems)
                             ++ " items")%string]),
                    Ok (("Refreshed Hacker News: "
                         ++ show_nat (List.length hnItems) ++ " items")%string
                        :: map (summary_line net) (getRSSFeeds cfg)))).
    { unfold refreshSources. rewrite Habs, Hhn. cbn [orb bind].
      rewrite Hsave. cbn [bind app].
      pose proof (refreshFeeds_results net (getRSSFeeds cfg) db0
                    [("Refreshed Hacker News: "
                      ++ show_nat (List.length hnItems)
                      ++ " items")%string]) as Hres.
      destruct (refreshFeeds net (getRSSFeeds cfg) db0 _) as [db' results].
      cbn [snd fst] in *. now rewrite Hres. }
    split; [exact Hrun|].
    split; [unfold handleRefreshCache; now rewrite Hrun|].
    split; [apply refreshFeeds_table|].
    split; [intros feed m; apply summary_line_failed|].
    intros feed items Hin Hf Hs.
    split; [now apply summary_line_refreshed|].
    intros item Hit.
    now apply (refreshFeeds_stores_healthy net _ _ _ feed items).
Qed.

Lemma C1_rss_failures_are_isolated_witness :
  exists db',
    refreshSources beta_down three_feeds None sample_table
    = (db', Ok [ "Refreshed Hacker News: 1 items";
                 "Refreshed alpha: 1 items";
                 "Failed to refresh beta: Error: Request timed out after 10000ms";
                 "Refreshed gamma: 1 items" ]%string)
    /\ map row_id db'
       = ["rss:blog:7"; "hn:2"; "hn:1"; "rss:alpha"; "rss:gamma"]%string.
Proof.
  destruct (proj2 (proj2 (C1_rss_failures_are_isolated beta_down three_feeds
                            None sample_table eq_refl))
              [example_item 1700000000000]
              (insert_or_replace
                 (mkRow "hn:1" "hackernews" "New AI agent released"
                    "https://example.com/agent" None None
                    (Some 200%float) (Some 50%float)
                    1699996400 1700000000 0%float)
                 sample_table)
              eq_refl eq_refl)
    as (db' & Hrun & _ & Hdb & _).
  exists db'. split.
  - rewrite Hrun. reflexivity.
  - rewrite Hdb. reflexivity.
Defined.

End ServerClaims.

(* ================================================================== *)
(** * Further properties of the cache store *)
(* ================================================================== *)

Section QueryFacts.

Local Open Scope list_scope.

Lemma In_sort_rows (r : Row) (l : list Row) : In r (sort_rows l) <-> In r l.
Proof.
  split; apply Permutation_in;
    [apply sort_rows_perm | apply Permutation_sym, sort_rows_perm].
Qed.

Lemma In_sql_limit (n : Z) (r : Row) (l : list Row) :
  In r (sql_limit n l) -> In r l.
Proof.
  unfold sql_limit. destruct (n <? 0); [trivial|]. intro H.
  rewrite <- (firstn_skipn (Z.to_nat n) l). apply in_or_app. now left.
Qed.


Lemma sql_limit_length (n : Z) (l : list Row) :
  n < 0 \/ Z.of_nat (List.length (sql_limit n l)) <= n.
Proof.
  unfold sql_limit. destruct (n <? 0) eqn:E.
  - left. now apply Z.ltb_lt.
  - right. apply Z.ltb_ge in E. rewrite length_firstn. lia.
Qed.

Lemma sql_limit_sorted (n : Z) (l : list Row) :
  Sorted ordered l -> Sorted ordered (sql_limit n l).
Proof.
  unfold sql_limit. destruct (n <? 0); [trivial | apply Sorted_firstn].
Qed.

Lemma valid_scores_sample : valid_scores sample_table.
Proof. repeat constructor. Qed.


End QueryFacts.

Section QueryProperties.

Local Open Scope list_scope.





(** X3: [searchFeedItems] returns at most [limit] items (50 when no limit
    is given) unless the limit is negative, and returns them ordered by
    [rank_score] descending and then [published_at] descending. *)
Theorem searchFeedItems_limit_and_order (query : string) (limit : option Z)
    (db : Table) :
  valid_scores db ->
  let n := match limit with Some n => n | None => 50 end in
  (n < 0 \/ Z.of_nat (List.length (searchFeedItems query limit db)) <= n)
  /\ Sorted ordered (searchFeedRows query limit db)
  /\ searchFeedItems query limit db
     = map item_of_row (searchFeedRows query limit db).
Proof.
  intro Hv. cbv zeta. unfold searchFeedItems. rewrite length_map.
  unfold searchFeedRows. split; [apply sql_limit_length|].
  split; [|reflexivity].
  apply sql_limit_sorted, sort_rows_sorted, valid_scores_filter, Hv.
Qed.

Lemma searchFeedItems_limit_and_order_witness :
  Z.of_nat (List.length (searchFeedItems "e" (Some 1) sample_table)) <= 1.
Proof.
  destruct (proj1 (searchFeedItems_limit_and_order "e" (Some 1) sample_table
                     valid_scores_sample)) as [H | H].
  - discriminate H.
  - exact H.
Defined.

End QueryProperties.

(* ================================================================== *)
(** * Further properties of the scoring engine *)
(* ================================================================== *)

Section ScoreFacts.

Local Open Scope float_scope.

Lemma ltb_nan_l (x : float) : (nan <? x) = false.
Proof.
  rewrite FloatAxioms.ltb_spec. change (Prim2SF nan) with S754_nan.
  reflexivity.
Qed.

Lemma is_nan_eq_nan (x : float) : is_nan x = true -> is_NaN x.
Proof.
  unfold is_nan, is_NaN. rewrite FloatAxioms.eqb_spec. unfold SFeqb.
  destruct (Prim2SF x) as [s|s| |s m e]; cbn [SFcompare];
    try discriminate; try reflexivity.
  - destruct s; discriminate.
  - rewrite Z.compare_refl, Pos.compare_cont_refl.
    destruct s; discriminate.
Qed.

Lemma ltb_is_NaN_l (x y : float) : is_NaN x -> (x <? y) = false.
Proof.
  unfold is_NaN. intro H. rewrite FloatAxioms.ltb_spec, H. reflexivity.
Qed.

Lemma leb_not_ltb (x y : float) : (x <=? y) = true -> (y <? x) = false.
Proof.
  rewrite FloatAxioms.leb_spec, FloatAxioms.ltb_spec. unfold SFleb, SFltb.
  rewrite (SFcompare_antisym (Prim2SF x) (Prim2SF y)).
  destruct (SFcompare (Prim2SF x) (Prim2SF y)) as [[ | | ]|];
    cbn [option_map CompOpp]; intro H; try reflexivity; discriminate H.
Qed.

(** The keyword score as a sum over the six categories. *)
Lemma keyword_score_sum (item : FeedItem) :
  let once (c : KeywordCategory) (w : Z) : Z :=
    if matched (scoringText item) c then w else 0%Z in
  calculateKeywordScore item =
    number_of_Z (once tools 50 + once aiTechniques 30
                 + once securityTechniques 30 + once practicalContent 20
                 + once funding (-40) + once genericHype (-20))%Z.
Proof.
  cbv zeta. unfold calculateKeywordScore, BOOST_KEYWORDS, PENALTY_KEYWORDS.
  set (text := scoringText item).
  rewrite !scanCategories_cons, !scanCategories_nil.
  destruct (matched text tools), (matched text aiTechniques),
    (matched text securityTechniques), (matched text practicalContent),
    (matched text funding), (matched text genericHype);
    vm_compute; reflexivity.
Qed.

Lemma toLowerCase_app (a b : string) :
  toLowerCase (a ++ b)%string = (toLowerCase a ++ toLowerCase b)%string.
Proof.
  induction a as [|c a IH]; cbn [append toLowerCase]; [reflexivity|].
  now rewrite IH.
Qed.

Lemma lower_ascii_idem (c : ascii) : lower_ascii (lower_ascii c) = lower_ascii c.
Proof.
  destruct c as [[] [] [] [] [] [] [] []]; vm_compute; reflexivity.
Qed.

Lemma toLowerCase_idem (s : string) : toLowerCase (toLowerCase s) = toLowerCase s.
Proof.
  induction s as [|c s IH]; cbn [toLowerCase]; [reflexivity|].
  now rewrite lower_ascii_idem, IH.
Qed.

End ScoreFacts.

Section ScoreProperties.

Local Open Scope float_scope.

(** X4: [calculateRankScore] never returns a negative number: whatever the
    item and the scoring time, the result is not below 0 (it is at least
    0, or [NaN]). *)
Theorem calculateRankScore_never_negative (now : Z) (item : FeedItem) :
  (calculateRankScore now item <? 0) = false
  /\ (is_nan (calculateRankScore now item) = false ->
      (0 <=? calculateRankScore now item) = true).
Proof.
  destruct (calculateRankScore_nan_or_nonneg now item) as [H | H].
  - split; [apply ltb_is_NaN_l, is_nan_eq_nan, H|].
    rewrite H. discriminate.
  - split; [now apply leb_not_ltb | now intros _].
Qed.

(** X5: the keyword component is a whole number between -60 and 130, a
    multiple of 10, however often and wherever keywords occur in the
    text. *)
Theorem calculateKeywordScore_bounded (item : FeedItem) :
  exists z : Z,
    calculateKeywordScore item = number_of_Z z
    /\ (-60 <= z <= 130)%Z
    /\ (z mod 10 = 0)%Z.
Proof.
  rewrite keyword_score_sum. cbv zeta.
  eexists. split; [reflexivity|].
  destruct (matched _ tools), (matched _ aiTechniques),
    (matched _ securityTechniques), (matched _ practicalContent),
    (matched _ funding), (matched _ genericHype);
    split; (lia || reflexivity).
Qed.

(** X6: the keyword component does not depend on letter case: two items
    whose titles and contents differ only in the case of their letters get
    the same keyword score. *)
Theorem calculateKeywordScore_ignores_case (a b : FeedItem) :
  toLowerCase (title a) = toLowerCase (title b) ->
  toLowerCase (match content a with Some c => c | None => "" end)
  = toLowerCase (match content b with Some c => c | None => "" end) ->
  calculateKeywordScore a = calculateKeywordScore b.
Proof.
  intros Ht Hc. unfold calculateKeywordScore, scoringText.
  rewrite !toLowerCase_app, Ht, Hc. reflexivity.
Qed.

Lemma calculateKeywordScore_ignores_case_witness :
  calculateKeywordScore
    (mkFeedItem "1" "rss:blog" "Rails UPDATE" "u" (Some "How To") None
       None None InvalidDate InvalidDate None)
  = calculateKeywordScore
      (mkFeedItem "2" "hackernews" "rails update" "v" (Some "how to") None
         None None InvalidDate InvalidDate None).
Proof.
  apply calculateKeywordScore_ignores_case; reflexivity.
Defined.

(** X7: the source component is 20, -10 or 0; a source tag that contains
    a premium entry scores 20 even when it also contains a general entry;
    entries are matched as substrings of the lower-cased tag, so a tag
    that merely starts with "rss:verge" or "rss:techcrunch" and contains no
    premium entry scores -10. *)
Theorem calculateSourceScore_values (item : FeedItem) :
  let tag := toLowerCase (source item) in
  (calculateSourceScore item = 20 \/ calculateSourceScore item = -10
   \/ calculateSourceScore item = 0)
  /\ (forall entry, In entry premiumSources -> includes tag entry = true ->
      calculateSourceScore item = 20)
  /\ (forall entry, In entry generalSources -> includes tag entry = true ->
      existsb (fun s => includes tag s) premiumSources = false ->
      calculateSourceScore item = -10)
  /\ (calculateSourceScore item = 0 ->
      forall entry, In entry (premiumSources ++ generalSources)%list ->
                    includes tag entry = false).
Proof.
  cbv zeta. unfold calculateSourceScore.
  set (tag := toLowerCase (source item)).
  destruct (existsb (fun s => includes tag s) premiumSources) eqn:Ep.
  - split; [now left|]. split; [reflexivity|].
    split; [discriminate|].
    intro H. exfalso.
    assert (E : (20 =? 0) = true) by (rewrite H; reflexivity).
    discriminate E.
  - destruct (existsb (fun s => includes tag s) generalSources) eqn:Eg.
    + split; [now right; left|]. split.
      * intros entry Hin Hinc. exfalso.
        assert (E : existsb (fun s => includes tag s) premiumSources = true)
          by (apply existsb_exists; eauto).
        congruence.
      * split; [reflexivity|].
        intro H. exfalso.
        assert (E : (-10 =? 0) = true) by (rewrite H; reflexivity).
        discriminate E.
    + split; [now right; right|]. split.
      * intros entry Hin Hinc. exfalso.
        assert (E : existsb (fun s => includes tag s) premiumSources = true)
          by (apply existsb_exists; eauto).
        congruence.
      * split.
        -- intros entry Hin Hinc. exfalso.
           assert (E : existsb (fun s => includes tag s) generalSources = true)
             by (apply existsb_exists; eauto).
           congruence.
        -- intros _ entry Hin. apply in_app_or in Hin.
           apply not_true_is_false. intro Hinc.
           destruct Hin as [Hin | Hin].
           ++ assert (E : existsb (fun s => includes tag s) premiumSources = true)
                by (apply existsb_exists; eauto).
              congruence.
           ++ assert (E : existsb (fun s => includes tag s) generalSources = true)
                by (apply existsb_exists; eauto).
              congruence.
Qed.

End ScoreProperties.

Lemma calculateSourceScore_values_witness :
  calculateSourceScore
    (mkFeedItem "1" "rss:TechCrunch-HackerNews" "t" "u" None None None None
       InvalidDate InvalidDate None) = 20%float
  /\ calculateSourceScore
       (mkFeedItem "2" "RSS:Vergecast" "t" "u" None None None None
          InvalidDate InvalidDate None) = (-10)%float.
Proof.
  split.
  - apply (proj1 (proj2 (calculateSourceScore_values _)) "hackernews"%string).
    + left. reflexivity.
    + reflexivity.
  - apply (proj1 (proj2 (proj2 (calculateSourceScore_values _)))
             "rss:verge"%string).
    + right. left. reflexivity.
    + reflexivity.
    + reflexivity.
Defined.

(* ================================================================== *)
(** * Further properties of writing and pruning *)
(* ================================================================== *)

Section StoreFacts.

Local Open Scope list_scope.

Lemma string_or_null_idem (s : option string) :
  string_or_null (string_or_null s) = string_or_null s.
Proof. now destruct s as [[|c s]|]. Qed.

Lemma number_or_null_idem (n : option float) :
  number_or_null (number_or_null n) = number_or_null n.
Proof.
  destruct n as [x|]; cbn [number_or_null]; [|reflexivity].
  destruct (truthy x) eqn:E; cbn [number_or_null]; [now rewrite E | reflexivity].
Qed.

Lemma number_or_zero_idem (n : option float) :
  number_or_zero (Some (number_or_zero n)) = number_or_zero n.
Proof.
  destruct n as [x|]; cbn [number_or_zero]; [|reflexivity].
  destruct (truthy x) eqn:E; cbn [number_or_zero]; [now rewrite E | reflexivity].
Qed.

Lemma filter_filter_neg_id (i : string) (db : Table) :
  filter (fun x => negb (String.eqb (row_id x) i))
    (filter (fun x => negb (String.eqb (row_id x) i)) db)
  = filter (fun x => negb (String.eqb (row_id x) i)) db.
Proof.
  induction db as [|x db IH]; [reflexivity|]. cbn [filter].
  destruct (negb (String.eqb (row_id x) i)) eqn:E; cbn [filter];
    [rewrite E; now f_equal | exact IH].
Qed.

Lemma saveFeedItems_app (xs ys : list FeedItem) (db : Table) :
  saveFeedItems (xs ++ ys) db = bind (saveFeedItems xs db) (saveFeedItems ys).
Proof.
  revert db. induction xs as [|x xs IH]; intro db; cbn [app saveFeedItems];
    [reflexivity|].
  destruct (saveFeedItem x db) as [db1|e]; cbn [bind]; [apply IH | reflexivity].
Qed.

Lemma forallb_false_witness {A : Type} (f : A -> bool) (l : list A) :
  forallb f l = false -> exists x, In x l /\ f x = false.
Proof.
  induction l as [|x l IH]; cbn [forallb]; [discriminate|].
  destruct (f x) eqn:E; cbn [andb].
  - intro H. destruct (IH H) as (y & Hy & Hf). exists y. split; [now right | exact Hf].
  - intros _. exists x. split; [now left | exact E].
Qed.

Lemma saveFeedItems_all_storable (items : list FeedItem) (db db' : Table) :
  saveFeedItems items db = Ok db' -> forallb storable items = true.
Proof.
  revert db. induction items as [|x items IH]; intro db;
    cbn [saveFeedItems forallb]; [reflexivity|].
  unfold saveFeedItem, bind_row, epoch_seconds, storable.
  destruct (published_at x), (cached_at x); cbn [bind]; try discriminate.
  cbn [andb]. apply IH.
Qed.

Lemma saveFeedItem_row_source (item : FeedItem) (db db' : Table) :
  saveFeedItem item db = Ok db' ->
  exists r, In r db' /\ row_source r = source item.
Proof.
  unfold saveFeedItem. destruct (bind_row item) as [r|e] eqn:Er; cbn [bind];
    [|discriminate].
  intro H. injection H as <-. exists r. split.
  - unfold insert_or_replace. apply in_or_app. right. now left.
  - destruct (bind_row_fields _ _ Er) as (p & c & _ & _ & ->). reflexivity.
Qed.

End StoreFacts.

Section StoreProperties.

Local Open Scope list_scope.

(** X8: writing an item touches no row with another [id]: the rows with
    other keys are the same after [saveFeedItem] as before, in the same
    order, and the written row comes last. *)
Theorem saveFeedItem_keeps_other_rows (item : FeedItem) (db db' : Table) :
  saveFeedItem item db = Ok db' ->
  exists r,
    bind_row item = Ok r
    /\ db' = filter (fun x => negb (String.eqb (row_id x) (id item))) db ++ [r]
    /\ filter (fun x => negb (String.eqb (row_id x) (id item))) db'
       = filter (fun x => negb (String.eqb (row_id x) (id item))) db
    /\ (forall x, row_id x <> id item -> (In x db' <-> In x db)).
Proof.
  unfold saveFeedItem. destruct (bind_row item) as [r|e] eqn:Er; cbn [bind];
    [|discriminate].
  intro H. injection H as <-. exists r.
  pose proof (row_id_bind_row _ _ Er) as Hid.
  unfold insert_or_replace. rewrite Hid.
  split; [reflexivity|]. split; [reflexivity|]. split.
  - rewrite filter_app, filter_filter_neg_id. cbn [filter].
    rewrite Hid, String.eqb_refl. cbn [negb]. apply app_nil_r.
  - intros x Hx. rewrite in_app_iff, filter_In. cbn [In]. split.
    + intros [[Hin _] | [<- | []]]; [exact Hin | congruence].
    + intro Hin. left. split; [exact Hin|].
      apply negb_true_iff. now apply String.eqb_neq.
Qed.

Lemma saveFeedItem_keeps_other_rows_witness :
  exists db',
    saveFeedItem second_write sample_table = Ok db'
    /\ (In row_b db' <-> In row_b sample_table).
Proof.
  destruct (saveFeedItem_keeps_other_rows second_write sample_table
              (insert_or_replace
                 (mkRow "hn:1" "hackernews:best" "Second title"
                    "https://example.com/2" None None None (Some 3%float)
                    1700000005 1700000200 17.5%float)
                 sample_table)
              eq_refl)
    as (r & _ & _ & _ & Hother).
  eexists. split; [reflexivity|].
  apply Hother. discriminate.
Defined.

(** X9: an item that was written is read back by [getFeedItems] with the
    same [id], [source], [title] and [url]; its timestamps come back
    rounded down to the whole second (less than 1000 ms earlier), an empty
    [content] or [author] comes back as none, and [rank_score] comes back
    as a number that is not [NaN] (0 when none was set). *)
Theorem saveFeedItem_then_getFeedItems (item : FeedItem) (db db' : Table) :
  saveFeedItem item db = Ok db' ->
  exists back published cached,
    In back (getFeedItems (mkOptions None None None) db')
    /\ id back = id item /\ source back = source item
    /\ title back = title item /\ url back = url item
    /\ content back = string_or_null (content item)
    /\ author back = string_or_null (author item)
    /\ published_at item = DateMs published
    /\ published_at back = DateMs (published / 1000 * 1000)
    /\ published - 1000 < published / 1000 * 1000 <= published
    /\ cached_at item = DateMs cached
    /\ cached_at back = DateMs (cached / 1000 * 1000)
    /\ rank_score back = Some (number_or_zero (rank_score item))
    /\ is_nan (number_or_zero (rank_score item)) = false.
Proof.
  unfold saveFeedItem. destruct (bind_row item) as [r|e] eqn:Er; cbn [bind];
    [|discriminate].
  intro H. injection H as <-.
  destruct (bind_row_fields _ _ Er) as (p & c & Hp & Hc & ->).
  eexists (item_of_row _), p, c. split.
  - unfold getFeedItems, getFeedRows. cbn [opt_limit].
    apply in_map. apply (proj2 (In_sort_rows _ _)). apply filter_In.
    split; [|reflexivity].
    unfold insert_or_replace. apply in_or_app. right. left. reflexivity.
  - cbn. repeat split; try assumption; try reflexivity.
    + pose proof (Z.mod_pos_bound p 1000 ltac:(lia)).
      pose proof (Z.div_mod p 1000 ltac:(lia)). lia.
    + pose proof (Z.div_mod p 1000 ltac:(lia)).
      pose proof (Z.mod_pos_bound p 1000 ltac:(lia)). lia.
    + apply number_or_zero_not_nan.
Qed.

Lemma saveFeedItem_then_getFeedItems_witness :
  exists back,
    In back (getFeedItems (mkOptions None None None)
               (insert_or_replace
                  (mkRow "hn:1" "hackernews:best" "Second title"
                     "https://example.com/2" None None None (Some 3%float)
                     1700000005 1700000200 17.5%float)
                  sample_table))
    /\ title back = "Second title"%string
    /\ published_at back = DateMs 1700000005000.
Proof.
  destruct (saveFeedItem_then_getFeedItems second_write sample_table _ eq_refl)
    as (back & p & c & Hin & _ & _ & Ht & _ & _ & _ & Hp & Hb & _).
  exists back. split; [exact Hin|]. split; [exact Ht|].
  injection Hp as <-. exact Hb.
Defined.

(** X10: what was read can be written back unchanged: binding the item
    that [getFeedItems] builds from a stored row gives that same row
    again, so re-saving a read item only moves its row to the end. *)
Theorem saveFeedItem_of_read_item (item : FeedItem) (r : Row) (db : Table) :
  bind_row item = Ok r ->
  bind_row (item_of_row r) = Ok r
  /\ saveFeedItem (item_of_row r) db = Ok (insert_or_replace r db).
Proof.
  intro Er. destruct (bind_row_fields _ _ Er) as (p & c & Hp & Hc & ->).
  assert (E : bind_row
                (item_of_row
                   (mkRow (id item) (source item) (title item) (url item)
                      (string_or_null (content item))
                      (string_or_null (author item))
                      (number_or_null (points item))
                      (number_or_null (comments item))
                      (p / 1000) (c / 1000)
                      (number_or_zero (rank_score item))))
              = Ok (mkRow (id item) (source item) (title item) (url item)
                      (string_or_null (content item))
                      (string_or_null (author item))
                      (number_or_null (points item))
                      (number_or_null (comments item))
                      (p / 1000) (c / 1000)
                      (number_or_zero (rank_score item)))).
  { unfold bind_row, item_of_row, epoch_seconds.
    cbn [bind id source title url content author points comments
         published_at cached_at rank_score row_id row_source row_title
         row_url row_content row_author row_points row_comments
         row_published_at row_cached_at row_rank_score].
    rewrite !string_or_null_idem, !number_or_null_idem, number_or_zero_idem.
    rewrite !Z.div_mul by lia. reflexivity. }
  split; [exact E|]. unfold saveFeedItem. now rewrite E.
Qed.

Lemma saveFeedItem_of_read_item_witness :
  exists r,
    bind_row first_write = Ok r /\ bind_row (item_of_row r) = Ok r.
Proof.
  eexists. split; [reflexivity|].
  apply (saveFeedItem_of_read_item first_write _ [] eq_refl).
Defined.

(** X11: a batch is written as a whole or not at all: [saveFeedItems]
    succeeds exactly when every item of the batch has valid dates, and one
    item with an invalid date makes the whole batch fail, wherever it
    stands in the batch. *)
Theorem saveFeedItems_all_or_nothing (items : list FeedItem) (db : Table) :
  ((exists db', saveFeedItems items db = Ok db')
   <-> forallb storable items = true)
  /\ ((exists e, saveFeedItems items db = Throw e)
      <-> exists item, In item items /\ storable item = false).
Proof.
  split.
  { split.
    - intros [db' H]. exact (saveFeedItems_all_storable _ _ _ H).
    - apply saveFeedItems_storable. }
  split.
  - intros [e He].
    destruct (forallb storable items) eqn:E.
    + destruct (saveFeedItems_storable items db E) as [db' E']. congruence.
    + exact (forallb_false_witness storable items E).
  - intros (x & Hin & Hx).
    destruct (saveFeedItems items db) as [db'|e] eqn:E; [|now exists e].
    pose proof (saveFeedItems_all_storable _ _ _ E) as Hall.
    rewrite forallb_forall in Hall. rewrite (Hall x Hin) in Hx. discriminate.
Qed.

(** Batches: a batch succeeds exactly when writing its first part and then
    the rest succeeds, and it leaves the same table; a batch of one item
    is [saveFeedItem], and the empty batch changes nothing. *)
Theorem saveFeedItems_in_parts (xs ys : list FeedItem) (item : FeedItem)
    (db db' : Table) :
  (saveFeedItems (xs ++ ys) db = Ok db'
   <-> exists db1, saveFeedItems xs db = Ok db1
                   /\ saveFeedItems ys db1 = Ok db')
  /\ saveFeedItems [item] db = saveFeedItem item db
  /\ saveFeedItems [] db = Ok db.
Proof.
  split; [|split; [|reflexivity]].
  - rewrite saveFeedItems_app. split.
    + destruct (saveFeedItems xs db) as [db1|e]; cbn [bind]; [|discriminate].
      intro H. now exists db1.
    + intros (db1 & -> & H). exact H.
  - cbn [saveFeedItems]. now destruct (saveFeedItem item db).
Qed.

End StoreProperties.

Section PruneProperties.

Local Open Scope list_scope.

(** X12: pruning is idempotent: a second [clearOldItems] with the same
    retention at the same time, or at any earlier time, deletes nothing
    and returns 0. *)
Theorem clearOldItems_twice (days : option Z) (now earlier : Z) (db : Table) :
  earlier <= now ->
  clearOldItems days earlier (snd (clearOldItems days now db))
  = (0, snd (clearOldItems days now db)).
Proof.
  intro Hle. unfold clearOldItems. cbn [snd].
  set (d := match days with Some d => d | None => 7 end).
  set (cut := now / 1000 - d * 24 * 60 * 60).
  set (cut' := earlier / 1000 - d * 24 * 60 * 60).
  assert (Hcut : cut' <= cut).
  { unfold cut, cut'. pose proof (Z.div_le_mono earlier now 1000). lia. }
  assert (Hnone : forall l,
            filter (fun r => row_cached_at r <? cut')
              (filter (fun r => negb (row_cached_at r <? cut)) l) = []).
  { induction l as [|x l IH]; [reflexivity|]. cbn [filter].
    destruct (row_cached_at x <? cut) eqn:E; cbn [negb filter]; [exact IH|].
    apply Z.ltb_ge in E.
    replace (row_cached_at x <? cut') with false; [exact IH|].
    symmetry. apply Z.ltb_ge. lia. }
  assert (Hall : forall l,
            filter (fun r => negb (row_cached_at r <? cut'))
              (filter (fun r => negb (row_cached_at r <? cut)) l)
            = filter (fun r => negb (row_cached_at r <? cut)) l).
  { induction l as [|x l IH]; [reflexivity|]. cbn [filter].
    destruct (row_cached_at x <? cut) eqn:E; cbn [negb filter]; [exact IH|].
    apply Z.ltb_ge in E.
    replace (row_cached_at x <? cut') with false;
      [cbn [negb]; now f_equal|].
    symmetry. apply Z.ltb_ge. lia. }
  now rewrite Hnone, Hall.
Qed.

Lemma clearOldItems_twice_witness :
  clearOldItems (Some 0) 12000 (snd (clearOldItems (Some 0) 12000 sample_table))
  = (0, snd (clearOldItems (Some 0) 12000 sample_table)).
Proof. apply clearOldItems_twice. lia. Defined.

(** X13: pruning never deletes what was just written: a row written with
    [cached_at] equal to the current time survives [clearOldItems] for
    every retention of 0 days or more, and so does every row cached at a
    later time. *)
Theorem clearOldItems_keeps_fresh_rows (item : FeedItem) (days now cached : Z)
    (db db' : Table) :
  0 <= days -> now <= cached ->
  cached_at item = DateMs cached ->
  saveFeedItem item db = Ok db' ->
  exists r,
    bind_row item = Ok r
    /\ In r db'
    /\ In r (snd (clearOldItems (Some days) now db')).
Proof.
  intros Hd Hn Hc. unfold saveFeedItem.
  destruct (bind_row item) as [r|e] eqn:Er; cbn [bind]; [|discriminate].
  intro H. injection H as <-. exists r. split; [reflexivity|].
  assert (Hin : In r (insert_or_replace r db))
    by (unfold insert_or_replace; apply in_or_app; right; now left).
  split; [exact Hin|].
  unfold clearOldItems. cbn [snd]. apply filter_In. split; [exact Hin|].
  apply negb_true_iff, Z.ltb_ge.
  destruct (bind_row_fields _ _ Er) as (p & c & _ & Hc' & ->).
  cbn [row_cached_at]. rewrite Hc in Hc'. injection Hc' as <-.
  pose proof (Z.div_le_mono now cached 1000). lia.
Qed.

Lemma clearOldItems_keeps_fresh_rows_witness :
  exists r,
    bind_row first_write = Ok r
    /\ In r (snd (clearOldItems (Some 0) 1700000100000
                    (insert_or_replace r sample_table))).
Proof.
  destruct (clearOldItems_keeps_fresh_rows first_write 0 1700000100000
              1700000100000 sample_table _
              ltac:(lia) ltac:(lia) eq_refl eq_refl)
    as (r & Hr & _ & Hkept).
  exists r. split; [exact Hr|].
  injection Hr as <-. exact Hkept.
Defined.

(** X14: [getAllSources] of the store lists exactly the sources of the
    stored rows, each once; pruning adds no source and writing an item
    makes its source listed. *)
Theorem getAllSources_exact (db : Table) :
  NoDup (Database.getAllSources db)
  /\ (forall s, In s (Database.getAllSources db)
                <-> exists r, In r db /\ row_source r = s)
  /\ (forall days now s,
        In s (Database.getAllSources (snd (clearOldItems days now db))) ->
        In s (Database.getAllSources db))
  /\ (forall item db', saveFeedItem item db = Ok db' ->
                       In (source item) (Database.getAllSources db')).
Proof.
  unfold Database.getAllSources.
  assert (Hiff : forall t s, In s (nodup string_dec (map row_source t))
                             <-> exists r, In r t /\ row_source r = s).
  { intros t s. rewrite nodup_In, in_map_iff. split.
    - intros (r & E & Hin). eauto.
    - intros (r & Hin & E). eauto. }
  split; [apply NoDup_nodup|]. split; [apply Hiff|]. split.
  - intros days now s Hin. apply Hiff in Hin as (r & Hin & E).
    apply Hiff. exists r. split; [|exact E].
    unfold clearOldItems in Hin. cbn [snd] in Hin.
    now apply filter_In in Hin.
  - intros item db' Hs. apply Hiff.
    destruct (saveFeedItem_row_source item db db' Hs) as (r & Hin & E).
    eauto.
Qed.

End PruneProperties.

Lemma getAllSources_exact_witness :
  In "hackernews:best"%string
    (Database.getAllSources
       (insert_or_replace
          (mkRow "hn:1" "hackernews:best" "Second title"
             "https://example.com/2" None None None (Some 3%float)
             1700000005 1700000200 17.5%float)
          sample_table)).
Proof.
  apply (proj2 (proj2 (proj2 (getAllSources_exact sample_table)))
           second_write).
  reflexivity.
Defined.

(* ================================================================== *)
(** * Further properties of the feed configuration *)
(* ================================================================== *)

Section RegistrationFacts.

Local Open Scope list_scope.

Lemma filter_none_removed (name : string) (feeds : list RSSFeedConfig) :
  (forall f, In f feeds -> feed_name f <> name) ->
  filter (fun f => negb (String.eqb (feed_name f) name)) feeds = feeds.
Proof.
  induction feeds as [|f feeds IH]; intro H; [reflexivity|]. cbn [filter].
  replace (String.eqb (feed_name f) name) with false.
  - cbn [negb]. f_equal. apply IH. intros g Hg. apply H. now right.
  - symmetry. apply String.eqb_neq. apply H. now left.
Qed.

Lemma filter_some_removed (name : string) (feeds : list RSSFeedConfig) :
  (exists f, In f feeds /\ feed_name f = name) ->
  (List.length (filter (fun f => negb (String.eqb (feed_name f) name)) feeds)
   < List.length feeds)%nat.
Proof.
  intros (f & Hin & Hn). induction feeds as [|g feeds IH]; [contradiction|].
  cbn [filter List.length].
  pose proof (filter_length_le
                (fun f => negb (String.eqb (feed_name f) name)) feeds) as Hle.
  destruct Hin as [-> | Hin].
  - rewrite Hn, String.eqb_refl. cbn [negb]. lia.
  - specialize (IH Hin). destruct (negb _); cbn [List.length]; lia.
Qed.

End RegistrationFacts.

Section RegistrationProperties.

Local Open Scope list_scope.

(** X15: [removeRSSFeed(name)] removes every registration with that name
    and keeps the others in their order.  When no registration has the
    name it returns false and leaves list and file as they were; when one
    has, and the file is written, it returns true and the file holds the
    new list; when the write fails the error is thrown, the file is
    unchanged and the list has lost the registrations all the same. *)
Theorem removeRSSFeed_by_name (write : result unit) (name : string)
    (c : ConfigManager) :
  let c' := fst (removeRSSFeed write name c) in
  let known := exists f, In f (getRSSFeeds c) /\ feed_name f = name in
  getRSSFeeds c' =
    filter (fun f => negb (String.eqb (feed_name f) name)) (getRSSFeeds c)
  /\ (forall f, In f (getRSSFeeds c') -> feed_name f <> name)
  /\ (~ known -> removeRSSFeed write name c = (c, Ok false))
  /\ (known -> write = Ok tt ->
      snd (removeRSSFeed write name c) = Ok true
      /\ file c' = Some (config c'))
  /\ (known -> forall e, write = Throw e ->
      snd (removeRSSFeed write name c) = Throw e /\ file c' = file c).
Proof.
  cbv zeta. split; [apply removeRSSFeed_feeds|]. split.
  - intros f. rewrite removeRSSFeed_feeds, filter_In.
    intros [_ H]. apply negb_true_iff in H. now apply String.eqb_neq.
  - split; [|split].
    + intro Hnot. unfold removeRSSFeed.
      rewrite filter_none_removed.
      * cbn [config rss_feeds]. rewrite Nat.ltb_irrefl.
        now destruct c as [[feeds] f].
      * intros f Hin E. apply Hnot. now exists f.
    + intros Hk ->. unfold removeRSSFeed. cbn [config rss_feeds].
      apply filter_some_removed in Hk. unfold getRSSFeeds in Hk.
      apply Nat.ltb_lt in Hk. rewrite Hk. now split.
    + intros Hk e ->. unfold removeRSSFeed. cbn [config rss_feeds].
      apply filter_some_removed in Hk. unfold getRSSFeeds in Hk.
      apply Nat.ltb_lt in Hk. rewrite Hk. now split.
Qed.

Lemma removeRSSFeed_by_name_witness :
  let c := fst (addRSSFeed (Ok tt) feed_two
                  (fst (addRSSFeed (Ok tt) feed_one emptyConfig))) in
  snd (removeRSSFeed (Ok tt) "news" c) = Ok true
  /\ removeRSSFeed (Ok tt) "sports" c = (c, Ok false).
Proof.
  cbv zeta. split.
  - apply (proj1 (proj2 (proj2 (proj2 (removeRSSFeed_by_name (Ok tt) "news"
             (fst (addRSSFeed (Ok tt) feed_two
                     (fst (addRSSFeed (Ok tt) feed_one emptyConfig))))))))).
    + exists feed_one. split; [left; reflexivity | reflexivity].
    + reflexivity.
  - apply (proj1 (proj2 (proj2 (removeRSSFeed_by_name (Ok tt) "sports"
             (fst (addRSSFeed (Ok tt) feed_two
                     (fst (addRSSFeed (Ok tt) feed_one emptyConfig)))))))).
    intros (f & [<- | [<- | []]] & E); discriminate E.
Defined.

(** X16: adding a registration and then removing it by name gives back
    the list as it was, provided the URL was new and no older registration
    had the same name; an older registration with that name is removed
    along with the new one. *)
Theorem addRSSFeed_then_removeRSSFeed (w1 w2 : result unit)
    (feed : RSSFeedConfig) (c : ConfigManager) :
  (forall f, In f (getRSSFeeds c) -> feed_url f <> feed_url feed) ->
  let c' := fst (removeRSSFeed w2 (feed_name feed)
                   (fst (addRSSFeed w1 feed c))) in
  getRSSFeeds c' =
    filter (fun f => negb (String.eqb (feed_name f) (feed_name feed)))
           (getRSSFeeds c)
  /\ ((forall f, In f (getRSSFeeds c) -> feed_name f <> feed_name feed) ->
      getRSSFeeds c' = getRSSFeeds c).
Proof.
  intro Hnew. cbv zeta.
  assert (Hadd : getRSSFeeds (fst (addRSSFeed w1 feed c))
                 = getRSSFeeds c ++ [feed]).
  { unfold addRSSFeed.
    replace (existsb _ _) with false.
    - rewrite saveConfig_feeds. reflexivity.
    - symmetry. apply not_true_is_false. intro E.
      apply existsb_exists in E as (f & Hin & He).
      apply String.eqb_eq in He. exact (Hnew f Hin He). }
  assert (Hrem : getRSSFeeds
                   (fst (removeRSSFeed w2 (feed_name feed)
                           (fst (addRSSFeed w1 feed c))))
                 = filter (fun f => negb (String.eqb (feed_name f)
                                                     (feed_name feed)))
                          (getRSSFeeds c)).
  { rewrite removeRSSFeed_feeds, Hadd, filter_app. cbn [filter].
    rewrite String.eqb_refl. cbn [negb]. apply app_nil_r. }
  split; [exact Hrem|].
  intro Hname. rewrite Hrem. now apply filter_none_removed.
Qed.

Lemma addRSSFeed_then_removeRSSFeed_witness :
  let c := fst (addRSSFeed (Ok tt) feed_one emptyConfig) in
  getRSSFeeds
    (fst (removeRSSFeed (Ok tt) "news" (fst (addRSSFeed (Ok tt) feed_two c))))
  = [].
Proof.
  cbv zeta.
  apply (proj1 (addRSSFeed_then_removeRSSFeed (Ok tt) (Ok tt) feed_two
                  (fst (addRSSFeed (Ok tt) feed_one emptyConfig))
                  ltac:(intros f [<- | []]; discriminate))).
Defined.

(** X17: when the file cannot be written, [addRSSFeed] throws the write
    error but has already pushed the registration: the list in memory
    holds it, the file does not, and adding the same registration again is
    rejected as a duplicate. *)
Theorem addRSSFeed_failed_write (e : Error) (retry : result unit)
    (feed : RSSFeedConfig) (c : ConfigManager) :
  (forall f, In f (getRSSFeeds c) -> feed_url f <> feed_url feed) ->
  let c' := fst (addRSSFeed (Throw e) feed c) in
  addRSSFeed (Throw e) feed c =
    (mkConfigManager (mkFeedConfig (getRSSFeeds c ++ [feed])) (file c),
     Throw e)
  /\ addRSSFeed retry feed c' =
     (c', Throw (new_Error ("RSS feed with URL " ++ feed_url feed
                            ++ " already exists")%string)).
Proof.
  intro Hnew. cbv zeta.
  assert (E : addRSSFeed (Throw e) feed c =
              (mkConfigManager (mkFeedConfig (getRSSFeeds c ++ [feed]))
                 (file c), Throw e)).
  { unfold addRSSFeed.
    replace (existsb _ _) with false; [reflexivity|].
    symmetry. apply not_true_is_false. intro H.
    apply existsb_exists in H as (f & Hin & He).
    apply String.eqb_eq in He. exact (Hnew f Hin He). }
  split; [exact E|]. rewrite E. cbn [fst]. unfold addRSSFeed.
  cbn [config rss_feeds].
  replace (existsb _ _) with true; [reflexivity|].
  symmetry. apply existsb_exists. exists feed. split.
  - apply in_or_app. right. now left.
  - apply String.eqb_refl.
Qed.

Lemma addRSSFeed_failed_write_witness :
  snd (addRSSFeed (Ok tt) feed_one
         (fst (addRSSFeed (Throw (new_Error "EACCES: permission denied"))
                 feed_one emptyConfig)))
  = Throw (new_Error
             "RSS feed with URL https://one.example/feed.xml already exists").
Proof.
  rewrite (proj2 (addRSSFeed_failed_write
                    (new_Error "EACCES: permission denied") (Ok tt)
                    feed_one emptyConfig ltac:(intros f []))).
  reflexivity.
Defined.

(** X18: as long as every write succeeds, file and memory agree: after
    any sequence of adds and removes the file holds exactly the list in
    memory, or does not exist yet while the list is empty. *)
Theorem config_file_in_sync (c : ConfigManager) :
  reachable_saved c ->
  file c = Some (config c) \/ (file c = None /\ getRSSFeeds c = []).
Proof.
  intro Hr. induction Hr as [|feed c _ IH|name c _ IH].
  - right. now split.
  - unfold addRSSFeed. destruct (existsb _ _); [exact IH|].
    left. reflexivity.
  - unfold removeRSSFeed. cbn [config rss_feeds].
    destruct (_ <? _)%nat eqn:E; [left; reflexivity|].
    apply Nat.ltb_ge in E.
    pose proof (filter_length_le
                  (fun f => negb (String.eqb (feed_name f) name))
                  (rss_feeds (config c))) as Hle.
    assert (Hsame : filter (fun f => negb (String.eqb (feed_name f) name))
                           (rss_feeds (config c)) = rss_feeds (config c)).
    { clear IH. induction (rss_feeds (config c)) as [|f l IHl];
        [reflexivity|].
      cbn [filter List.length] in *.
      pose proof (filter_length_le
                    (fun f => negb (String.eqb (feed_name f) name)) l).
      destruct (negb _); cbn [List.length] in *; [f_equal; apply IHl; lia | lia]. }
    cbn [fst]. rewrite Hsame.
    destruct c as [[feeds] f]. exact IH.
Qed.

Lemma config_file_in_sync_witness :
  let c := fst (removeRSSFeed (Ok tt) "news"
                  (fst (addRSSFeed (Ok tt) feed_one emptyConfig))) in
  file c = Some (config c) \/ (file c = None /\ getRSSFeeds c = []).
Proof.
  apply config_file_in_sync. apply saved_remove, saved_add, saved_empty.
Defined.

End RegistrationProperties.

(* ================================================================== *)
(** * Further properties of the refresh *)
(* ================================================================== *)

Section RefreshFacts.

Local Open Scope list_scope.

Lemma saveFeedItems_valid_scores (items : list FeedItem) (db db' : Table) :
  valid_scores db -> saveFeedItems items db = Ok db' -> valid_scores db'.
Proof.
  revert db. induction items as [|x items IH]; intros db Hv;
    cbn [saveFeedItems].
  - intro H. injection H as <-. exact Hv.
  - destruct (saveFeedItem x db) as [db1|e] eqn:E; cbn [bind]; [|discriminate].
    apply IH. exact (saveFeedItem_valid_scores _ _ _ Hv E).
Qed.

Lemma refreshFeed_invariants (net : Network) (feed : RSSFeedConfig)
    (db : Table) :
  unique_ids db /\ valid_scores db ->
  unique_ids (fst (refreshFeed net feed db))
  /\ valid_scores (fst (refreshFeed net feed db)).
Proof.
  intros [Hu Hv]. unfold refreshFeed.
  destruct (rssFetch net (feed_name feed) (feed_url feed)) as [items|e];
    cbn [bind]; [|now split].
  destruct (saveFeedItems items db) as [db'|e] eqn:E; cbn [bind fst];
    [|now split].
  split; [exact (saveFeedItems_unique _ _ _ Hu E)
         | exact (saveFeedItems_valid_scores _ _ _ Hv E)].
Qed.

Lemma refreshFeeds_invariants (net : Network) (feeds : list RSSFeedConfig)
    (db : Table) (results : list string) :
  unique_ids db /\ valid_scores db ->
  unique_ids (fst (refreshFeeds net feeds db results))
  /\ valid_scores (fst (refreshFeeds net feeds db results)).
Proof.
  revert db results. induction feeds as [|feed feeds IH]; intros db results H;
    cbn [refreshFeeds]; [exact H|].
  pose proof (refreshFeed_invariants net feed db H) as H1.
  destruct (refreshFeed net feed db) as [db1 line]. now apply IH.
Qed.

Lemma rss_prefix_not_absent (s : string) :
  startsWith s "rss:" = true ->
  absent (Some s) = false /\ source_is (Some s) "hackernews" = false.
Proof.
  unfold startsWith, absent, source_is.
  destruct s as [|c s]; [discriminate|]. intro H. split; [reflexivity|].
  apply String.eqb_neq. intro E. rewrite E in H. discriminate H.
Qed.

End RefreshFacts.

Section RefreshProperties.

Local Open Scope list_scope.

(** X19: a refresh of one RSS source ([source] starts with "rss:") never
    throws and never touches the item tracker: it refreshes exactly the
    registrations named by the selector, reports one line for each, and
    its outcome is the same whatever the item tracker would answer. *)
Theorem handleRefreshCache_rss_source (net : Network) (cfg : ConfigManager)
    (s : string) (db : Table) :
  startsWith s "rss:" = true ->
  let feeds :=
    filter (fun f => String.eqb s ("rss:" ++ feed_name f)%string)
           (getRSSFeeds cfg) in
  handleRefreshCache net cfg (Some s) db
  = (fst (refreshFeeds net feeds db []),
     Ok (String.concat (String (ascii_of_nat 10) "")
           (map (summary_line net) feeds)))
  /\ (forall hn, handleRefreshCache (mkNetwork hn (rssFetch net)) cfg (Some s) db
                 = handleRefreshCache net cfg (Some s) db).
Proof.
  intro Hs. cbv zeta.
  destruct (rss_prefix_not_absent s Hs) as [Ha Hh].
  assert (E : forall n, rssFetch n = rssFetch net ->
    handleRefreshCache n cfg (Some s) db
    = (fst (refreshFeeds net
              (filter (fun f => String.eqb s ("rss:" ++ feed_name f)%string)
                      (getRSSFeeds cfg)) db []),
       Ok (String.concat (String (ascii_of_nat 10) "")
             (map (summary_line net)
                (filter (fun f => String.eqb s ("rss:" ++ feed_name f)%string)
                        (getRSSFeeds cfg)))))).
  { intros n Hn. unfold handleRefreshCache, refreshSources.
    rewrite Ha, Hh. cbn [orb]. unfold source_startsWith. rewrite Hs.
    unfold source_is.
    set (feeds := filter _ (getRSSFeeds cfg)).
    assert (Hsame : refreshFeeds n feeds db [] = refreshFeeds net feeds db []).
    { generalize (@nil string). generalize db.
      induction feeds as [|f feeds IH]; intros t acc; cbn [refreshFeeds];
        [reflexivity|].
      unfold refreshFeed. rewrite Hn.
      destruct (match bind _ _ with Ok (db', items) => _ | Throw error => _ end)
        as [t1 line].
      apply IH. }
    rewrite Hsame.
    pose proof (refreshFeeds_results net feeds db []) as Hres.
    destruct (refreshFeeds net feeds db []) as [db' results].
    cbn [snd fst app] in *. now rewrite Hres. }
  split; [now apply E|].
  intro hn. rewrite (E net eq_refl). now apply E.
Qed.

Lemma handleRefreshCache_rss_source_witness :
  snd (handleRefreshCache tracker_down three_feeds (Some "rss:gamma"%string)
         sample_table)
  = Ok "Refreshed gamma: 1 items"%string.
Proof.
  rewrite (proj1 (handleRefreshCache_rss_source tracker_down three_feeds
                    "rss:gamma" sample_table eq_refl)).
  reflexivity.
Defined.

(** X20: a refresh of the source "hackernews" fetches no RSS
    registration: its outcome does not depend on the registrations or on
    what the feeds would answer; and a source selector that is neither
    empty, nor "hackernews", nor starts with "rss:" refreshes nothing and
    returns an empty summary. *)
Theorem handleRefreshCache_other_sources (net : Network) (cfg : ConfigManager)
    (s : string) (db : Table) :
  (forall rss cfg',
     handleRefreshCache (mkNetwork (hnFetch net) rss) cfg'
       (Some "hackernews"%string) db
     = handleRefreshCache net cfg (Some "hackernews"%string) db)
  /\ (s <> ""%string -> s <> "hackernews"%string ->
      startsWith s "rss:" = false ->
      handleRefreshCache net cfg (Some s) db = (db, Ok ""%string)).
Proof.
  split.
  - intros rss cfg'. reflexivity.
  - intros H1 H2 H3. unfold handleRefreshCache, refreshSources.
    unfold absent, source_is, source_startsWith.
    destruct s as [|c s]; [contradiction|].
    apply String.eqb_neq in H2. rewrite H2, H3. reflexivity.
Qed.

Lemma handleRefreshCache_other_sources_witness :
  handleRefreshCache beta_down three_feeds (Some "twitter"%string) sample_table
  = (sample_table, Ok ""%string).
Proof.
  apply (proj2 (handleRefreshCache_other_sources beta_down three_feeds
                  "twitter" sample_table));
    [discriminate | discriminate | reflexivity].
Defined.

(** X21: whatever the network answers and whatever source is selected, a
    refresh keeps the table well formed: no two rows share an [id], and
    no [rank_score] is [NaN]; this also holds when the call throws. *)
Theorem handleRefreshCache_keeps_table_invariants (net : Network)
    (cfg : ConfigManager) (source : option string) (db : Table) :
  unique_ids db -> valid_scores db ->
  unique_ids (fst (handleRefreshCache net cfg source db))
  /\ valid_scores (fst (handleRefreshCache net cfg source db)).
Proof.
  intros Hu Hv. unfold handleRefreshCache, refreshSources.
  set (hnStage := if absent source || source_is source "hackernews" then _
                  else _).
  assert (Hhn : match hnStage with
                | Ok (t, _) => unique_ids t /\ valid_scores t
                | Throw _ => True
                end).
  { unfold hnStage. destruct (absent source || source_is source "hackernews");
      [|now split].
    destruct (hnFetch net) as [items|e]; cbn [bind]; [|exact I].
    destruct (saveFeedItems items db) as [t|e] eqn:E; cbn [bind]; [|exact I].
    split; [exact (saveFeedItems_unique _ _ _ Hu E)
           | exact (saveFeedItems_valid_scores _ _ _ Hv E)]. }
  destruct hnStage as [[t results]|e]; [|now split].
  destruct (absent source || source_startsWith source "rss:"); [|exact Hhn].
  set (feeds := if absent source then _ else _).
  pose proof (refreshFeeds_invariants net feeds t results Hhn) as H.
  destruct (refreshFeeds net feeds t results) as [t' results']. exact H.
Qed.

Lemma handleRefreshCache_keeps_table_invariants_witness :
  unique_ids (fst (handleRefreshCache beta_down three_feeds None sample_table)).
Proof.
  apply handleRefreshCache_keeps_table_invariants.
  - repeat constructor; cbn; intuition discriminate.
  - exact valid_scores_sample.
Defined.

End RefreshProperties.

(* ================================================================== *)
(** * Further properties of the tool and resource handlers *)
(* ================================================================== *)

Section HandlerFacts.

Local Open Scope list_scope.

Lemma In_getFeedItems (options : GetFeedOptions) (db : Table)
    (item : FeedItem) :
  In item (getFeedItems options db) ->
  exists r, In r db /\ where_clause options r = true /\ item = item_of_row r.
Proof.
  unfold getFeedItems. rewrite in_map_iff. intros (r & <- & Hin).
  exists r. split; [|split; [|reflexivity]].
  - assert (H : In r (sort_rows (filter (where_clause options) db))).
    { unfold getFeedRows in Hin. destruct (opt_limit options) as [n|];
        [|exact Hin].
      destruct (n =? 0); [exact Hin | exact (In_sql_limit _ _ _ Hin)]. }
    apply (proj1 (In_sort_rows _ _)) in H. now apply filter_In in H.
  - assert (H : In r (sort_rows (filter (where_clause options) db))).
    { unfold getFeedRows in Hin. destruct (opt_limit options) as [n|];
        [|exact Hin].
      destruct (n =? 0); [exact Hin | exact (In_sql_limit _ _ _ Hin)]. }
    apply (proj1 (In_sort_rows _ _)) in H. now apply filter_In in H.
Qed.

Lemma getFeedItems_length (source : option string) (since : option Date)
    (n : Z) (db : Table) :
  0 < n ->
  Z.of_nat (List.length (getFeedItems (mkOptions source (Some n) since) db))
  <= n.
Proof.
  intro Hn. unfold getFeedItems, getFeedRows. cbn [opt_limit].
  rewrite length_map.
  replace (n =? 0) with false by (symmetry; apply Z.eqb_neq; lia).
  destruct (sql_limit_length n
              (sort_rows (filter (where_clause (mkOptions source (Some n) since))
                                 db))) as [H | H]; [lia | exact H].
Qed.

Lemma substring_all (s : string) : String.substring 0 (String.length s) s = s.
Proof.
  induction s as [|c s IH]; [reflexivity|].
  cbn [String.length String.substring]. now rewrite IH.
Qed.

Lemma match_feed_uri_source (source : string) :
  source <> ""%string -> one_line source = true ->
  match_feed_uri ("feed://" ++ source) = Some source.
Proof.
  intros Hne Hline. unfold match_feed_uri, startsWith.
  cbn [append String.prefix String.length Nat.sub String.substring].
  repeat (destruct (ascii_dec _ _) as [_|N]; [|now contradiction N]).
  replace (String.prefix "" source) with true by now destruct source.
  rewrite Nat.sub_0_r, substring_all. destruct source as [|c s]; [contradiction|].
  now rewrite Hline.
Qed.

Lemma one_line_app (a b : string) :
  one_line (a ++ b) = one_line a && one_line b.
Proof.
  induction a as [|c a IH]; cbn [append one_line]; [reflexivity|].
  now rewrite IH, andb_assoc.
Qed.

End HandlerFacts.

Section HandlerProperties.

Local Open Scope list_scope.

(** X22: [get_feed] returns at most [limit] items, at most 30 when no
    limit is given; with a source other than "all" every returned item has
    that source, and with [hours_ago] every returned item was published
    less than [hours_ago] hours and one second before the call. *)
Theorem handleGetFeed_items_selected (args : GetFeedArgs) (now : Z)
    (db : Table) :
  let n := match arg_limit args with Some n => n | None => 30 end in
  0 < n ->
  Z.of_nat (List.length (handleGetFeed_items args now db)) <= n
  /\ (forall item, In item (handleGetFeed_items args now db) ->
        (forall s, arg_source args = Some s -> s <> ""%string ->
                   s <> "all"%string -> source item = s)
        /\ (forall h, arg_hours_ago args = Some h -> h <> 0 ->
              exists p, published_at item = DateMs p
                        /\ now - h * 3600000 - 1000 < p)).
Proof.
  cbv zeta. intro Hn. unfold handleGetFeed_items.
  split; [now apply getFeedItems_length|].
  intros item Hin. apply In_getFeedItems in Hin as (r & _ & Hw & ->).
  unfold where_clause in Hw. cbn [opt_source opt_since] in Hw.
  apply andb_true_iff in Hw as [Hsrc Hsince]. split.
  - intros s Es Hs Hall. rewrite Es in Hsrc.
    assert (Ha : absent (Some s) = false) by now destruct s.
    rewrite Ha in Hsrc. cbn [orb] in Hsrc.
    apply String.eqb_neq in Hall. rewrite Hall in Hsrc.
    destruct s as [|c s]; [contradiction|].
    cbn [item_of_row source]. now apply String.eqb_eq.
  - intros h Eh Hh. rewrite Eh in Hsince.
    apply Z.eqb_neq in Hh. rewrite Hh in Hsince.
    unfold new_Date, since_matches in Hsince.
    destruct (Z.abs _ <=? _); [|discriminate].
    apply Z.leb_le in Hsince.
    exists (row_published_at r * 1000). split; [reflexivity|].
    pose proof (Z.div_mod (now - h * 60 * 60 * 1000) 1000 ltac:(lia)).
    pose proof (Z.mod_pos_bound (now - h * 60 * 60 * 1000) 1000 ltac:(lia)).
    lia.
Qed.

Lemma handleGetFeed_items_selected_witness :
  Z.of_nat (List.length
              (handleGetFeed_items
                 (mkGetFeedArgs (Some "hackernews"%string) None (Some 24))
                 86400000 sample_table)) <= 30.
Proof.
  apply (proj1 (handleGetFeed_items_selected
                  (mkGetFeedArgs (Some "hackernews"%string) None (Some 24))
                  86400000 sample_table ltac:(cbn; lia))).
Defined.

(** X23: every resource that [ListResources] lists can be read, as long
    as no feed name contains a line break: reading it does not throw and
    returns at most 50 items, which all come from the listed source unless
    the resource is "feed://all". *)
Theorem listed_resources_are_readable (cfg : ConfigManager) (db : Table)
    (res : Resource) :
  (forall f, In f (getRSSFeeds cfg) -> one_line (feed_name f) = true) ->
  In res (listResources cfg) ->
  exists items,
    readResource_items (uri res) db = Ok items
    /\ Z.of_nat (List.length items) <= 50
    /\ (uri res <> "feed://all"%string ->
        forall item, In item items ->
                     ("feed://" ++ source item)%string = uri res).
Proof.
  intros Hnames Hin. unfold listResources in Hin.
  apply in_app_or in Hin as [Hin | [<- | []]].
  - apply in_map_iff in Hin as (s & <- & Hs). cbn [uri].
    assert (Hsrc : s <> ""%string /\ one_line s = true
                   /\ String.eqb s "all" = false).
    { unfold Config.getAllSources in Hs. destruct Hs as [<- | Hs].
      - repeat split. discriminate.
      - apply in_map_iff in Hs as (f & <- & Hf). split; [discriminate|].
        split; [|reflexivity].
        rewrite one_line_app. now rewrite (Hnames f Hf). }
    destruct Hsrc as (Hne & Hline & Hall).
    unfold readResource_items.
    rewrite (match_feed_uri_source s Hne Hline), Hall.
    eexists. split; [reflexivity|].
    split; [apply getFeedItems_length; lia|].
    intros _ item Hitem.
    apply In_getFeedItems in Hitem as (r & _ & Hw & ->).
    unfold where_clause in Hw. cbn [opt_source] in Hw.
    destruct s as [|c s]; [contradiction|].
    apply andb_true_iff in Hw as [Hw _]. apply String.eqb_eq in Hw.
    cbn [item_of_row source]. now rewrite Hw.
  - cbn [uri]. eexists. split; [reflexivity|].
    split; [apply getFeedItems_length; lia|]. intro H. now contradiction H.
Qed.

Lemma listed_resources_are_readable_witness :
  exists items,
    readResource_items "feed://rss:beta" sample_table = Ok items
    /\ Z.of_nat (List.length items) <= 50.
Proof.
  destruct (listed_resources_are_readable three_feeds sample_table
              (mkResource "feed://rss:beta" "application/json" "rss:beta feed"
                 "Latest items from rss:beta")
              ltac:(intros f [<- | [<- | [<- | []]]]; reflexivity)
              ltac:(right; right; left; reflexivity))
    as (items & Hread & Hlen & _).
  exists items. split; [exact Hread | exact Hlen].
Defined.

(** X24: a second [add_rss_feed] with the same URL is always rejected:
    whatever the names, and whether or not the first call could write the
    file, the second call throws "Failed to add RSS feed: Error: RSS feed
    with URL ... already exists" and changes nothing. *)
Theorem handleAddRSSFeed_twice (w1 w2 : result unit) (name1 name2 url : string)
    (cfg : ConfigManager) :
  let cfg1 := fst (handleAddRSSFeed w1 name1 url cfg) in
  handleAddRSSFeed w2 name2 url cfg1 =
  (cfg1, Throw (new_Error ("Failed to add RSS feed: Error: RSS feed with URL "
                           ++ url ++ " already exists")%string)).
Proof.
  cbv zeta.
  assert (Hdup : existsb (fun f => String.eqb (feed_url f) url)
                   (rss_feeds (config (fst (handleAddRSSFeed w1 name1 url cfg))))
                 = true).
  { unfold handleAddRSSFeed, addRSSFeed. cbn [feed_url].
    destruct (existsb _ (rss_feeds (config cfg))) eqn:E; [exact E|].
    unfold saveConfig. destruct w1; cbn [fst config rss_feeds];
      rewrite existsb_app; cbn [existsb feed_url];
      rewrite String.eqb_refl; apply orb_true_iff; right; reflexivity. }
  unfold handleAddRSSFeed at 1. unfold addRSSFeed at 1. cbn [feed_url].
  rewrite Hdup. reflexivity.
Qed.

(** X25: a second [remove_rss_feed] with the same name always throws "RSS
    feed not found": whatever the first call did, afterwards no
    registration has the name, and the second call changes neither the
    list nor the file. *)
Theorem handleRemoveRSSFeed_twice (w1 w2 : result unit) (name : string)
    (cfg : ConfigManager) :
  let cfg1 := fst (handleRemoveRSSFeed w1 name cfg) in
  handleRemoveRSSFeed w2 name cfg1 =
  (cfg1, Throw (new_Error ("RSS feed not found: " ++ name)%string)).
Proof.
  cbv zeta.
  assert (Hcfg : fst (handleRemoveRSSFeed w1 name cfg)
                 = fst (removeRSSFeed w1 name cfg)).
  { unfold handleRemoveRSSFeed.
    destruct (removeRSSFeed w1 name cfg) as [c1 [[|]|e]]; reflexivity. }
  rewrite Hcfg. unfold handleRemoveRSSFeed.
  destruct (removeRSSFeed_by_name w1 name cfg) as (_ & Hgone & _).
  cbv zeta in Hgone.
  destruct (removeRSSFeed_by_name w2 name (fst (removeRSSFeed w1 name cfg)))
    as (_ & _ & Hnot & _).
  cbv zeta in Hnot. rewrite Hnot; [reflexivity|].
  intros (f & Hin & E). exact (Hgone f Hin E).
Qed.

End HandlerProperties.

(* ================================================================== *)
(** * The score map *)
(* ================================================================== *)

Section ScoreMapFacts.

Local Open Scope list_scope.

Context {V : Type}.

Lemma map_get_set_same (k : string) (v : V) (m : JSMap V) :
  map_get k (map_set k v m) = Some v.
Proof.
  induction m as [|[k' v'] m IH]; cbn [map_set map_get].
  - now rewrite String.eqb_refl.
  - destruct (String.eqb k' k) eqn:E; cbn [map_get].
    + now rewrite String.eqb_refl.
    + now rewrite E.
Qed.

Lemma map_get_set_other (k k' : string) (v : V) (m : JSMap V) :
  k <> k' -> map_get k' (map_set k v m) = map_get k' m.
Proof.
  intro Hne. induction m as [|[k0 v0] m IH]; cbn [map_set map_get].
  - replace (String.eqb k k') with false; [reflexivity|].
    symmetry. now apply String.eqb_neq.
  - destruct (String.eqb k0 k) eqn:E; cbn [map_get].
    + apply String.eqb_eq in E. subst k0.
      replace (String.eqb k k') with false; [reflexivity|].
      symmetry. now apply String.eqb_neq.
    + now rewrite IH.
Qed.

Lemma map_set_keys (k : string) (v : V) (m : JSMap V) :
  map fst (map_set k v m) =
  if existsb (String.eqb k) (map fst m) then map fst m else map fst m ++ [k].
Proof.
  induction m as [|[k' v'] m IH]; cbn [map_set map fst existsb app];
    [reflexivity|].
  rewrite (String.eqb_sym k k').
  destruct (String.eqb k' k) eqn:E; cbn [map fst orb].
  - apply String.eqb_eq in E. now subst.
  - rewrite IH. now destruct (existsb _ _).
Qed.

Lemma map_set_keys_In (k : string) (v : V) (m : JSMap V) (i : string) :
  In i (map fst (map_set k v m)) <-> In i (map fst m) \/ i = k.
Proof.
  rewrite map_set_keys. destruct (existsb _ _) eqn:E.
  - apply existsb_exists in E as (x & Hx & Ex). apply String.eqb_eq in Ex.
    subst x. split; [now left | intros [H | ->]; assumption].
  - rewrite in_app_iff. cbn [In]. split.
    + intros [H | [<- | []]]; [now left | now right].
    + intros [H | ->]; [now left | right; now left].
Qed.

Lemma map_set_keys_NoDup (k : string) (v : V) (m : JSMap V) :
  NoDup (map fst m) -> NoDup (map fst (map_set k v m)).
Proof.
  intro Hd. rewrite map_set_keys. destruct (existsb _ _) eqn:E; [exact Hd|].
  apply NoDup_app_remove_l with (l := @nil string). cbn [app].
  apply Permutation_NoDup with (l := k :: map fst m).
  - apply Permutation_cons_append.
  - constructor; [|exact Hd]. intro Hin.
    assert (existsb (String.eqb k) (map fst m) = true).
    { apply existsb_exists. exists k. split; [exact Hin | apply String.eqb_refl]. }
    congruence.
Qed.

Lemma map_set_length (k : string) (v : V) (m : JSMap V) :
  (List.length (map_set k v m) <= S (List.length m))%nat.
Proof.
  induction m as [|[k' v'] m IH]; cbn [map_set List.length]; [lia|].
  destruct (String.eqb k' k); cbn [List.length]; lia.
Qed.

End ScoreMapFacts.

Section ScoreMapProperties.

Local Open Scope list_scope.

Lemma scores_fold_get (now : Z) (items : list FeedItem) (m : JSMap float)
    (i : string) :
  (forall x, In x items -> id x <> i) ->
  map_get i
    (fold_left (fun scores item =>
                  map_set (id item) (calculateRankScore now item) scores)
               items m)
  = map_get i m.
Proof.
  revert m. induction items as [|x items IH]; intros m H; cbn [fold_left];
    [reflexivity|].
  rewrite IH by (intros y Hy; apply H; now right).
  apply map_get_set_other. apply H. now left.
Qed.

Lemma scores_fold_keys (now : Z) (items : list FeedItem) (m : JSMap float) :
  (NoDup (map fst m) ->
   NoDup (map fst (fold_left
                     (fun scores item =>
                        map_set (id item) (calculateRankScore now item) scores)
                     items m)))
  /\ (forall i,
        In i (map fst (fold_left
                         (fun scores item =>
                            map_set (id item) (calculateRankScore now item)
                                    scores)
                         items m))
        <-> In i (map fst m) \/ In i (map id items))
  /\ (List.length (fold_left
                     (fun scores item =>
                        map_set (id item) (calculateRankScore now item) scores)
                     items m)
      <= List.length m + List.length items)%nat.
Proof.
  revert m. induction items as [|x items IH]; intro m; cbn [fold_left map In].
  - split; [trivial|]. split; [intuition | cbn [List.length]; lia].
  - destruct (IH (map_set (id x) (calculateRankScore now x) m))
      as (Hd & Hk & Hl).
    split; [intro H; apply Hd; now apply map_set_keys_NoDup|].
    split.
    + intro i. rewrite Hk, map_set_keys_In. intuition.
    + pose proof (map_set_length (id x) (calculateRankScore now x) m).
      cbn [List.length]. lia.
Qed.

(** X26: [calculateRankScores] holds one entry for each distinct [id] of
    the items, and for an [id] that several items share the score of the
    last of them: no key occurs twice, the keys are exactly the ids, the
    map is no longer than the list, and looking up the [id] of an item
    that no later item repeats gives that item's score. *)
Theorem calculateRankScores_last_wins (now : Z) (items : list FeedItem) :
  let scores := calculateRankScores now items in
  NoDup (map fst scores)
  /\ (forall i, In i (map fst scores) <-> In i (map id items))
  /\ (List.length scores <= List.length items)%nat
  /\ (forall before item after,
        items = before ++ item :: after ->
        (forall x, In x after -> id x <> id item) ->
        map_get (id item) scores = Some (calculateRankScore now item))
  /\ (forall i, ~ In i (map id items) -> map_get i scores = None).
Proof.
  cbv zeta. unfold calculateRankScores.
  destruct (scores_fold_keys now items nil) as (Hd & Hk & Hl).
  split; [apply Hd; constructor|].
  split; [intro i; rewrite Hk; cbn [map In]; intuition|].
  split; [exact Hl|]. split.
  - intros before item after -> Hlast.
    rewrite fold_left_app. cbn [fold_left].
    rewrite scores_fold_get by exact Hlast.
    apply map_get_set_same.
  - intros i Hnot. rewrite scores_fold_get; [reflexivity|].
    intros x Hx E. apply Hnot. apply in_map_iff. eauto.
Qed.

Lemma calculateRankScores_last_wins_witness :
  map_get "hn:1"
    (calculateRankScores 1700000000000 [first_write; second_write; undated_item])
  = Some (calculateRankScore 1700000000000 second_write).
Proof.
  apply (proj1 (proj2 (proj2 (proj2
           (calculateRankScores_last_wins 1700000000000
              [first_write; second_write; undated_item]))))
           [first_write] second_write [undated_item] eq_refl).
  intros x [<- | []]. discriminate.
Defined.

End ScoreMapProperties.

(* ================================================================== *)
(** * The source adapters *)
(* ================================================================== *)

Section AdapterFacts.

Local Open Scope list_scope.

Lemma slice_to_In {A : Type} (n : Z) (l : list A) (x : A) :
  In x (slice_to n l) -> In x l.
Proof.
  unfold slice_to. intro H.
  destruct (n <? 0);
    [rewrite <- (firstn_skipn (Z.to_nat (Z.of_nat (List.length l) + n)) l)
    | rewrite <- (firstn_skipn (Z.to_nat n) l)];
    apply in_or_app; now left.
Qed.

Lemma slice_to_length {A : Type} (n : Z) (l : list A) :
  (List.length (slice_to n l) <= List.length l)%nat
  /\ (0 <= n -> Z.of_nat (List.length (slice_to n l)) <= n).
Proof.
  unfold slice_to. destruct (n <? 0) eqn:E; rewrite length_firstn.
  - apply Z.ltb_lt in E. split; lia.
  - split; lia.
Qed.

Lemma non_null_In (stories : list (option HackerNews.HNStory))
    (story : HackerNews.HNStory) :
  In story (HackerNews.non_null stories) <-> In (Some story) stories.
Proof.
  induction stories as [|[s|] stories IH]; cbn [HackerNews.non_null In].
  - reflexivity.
  - rewrite IH. split; intros [H | H]; auto; left; congruence.
  - rewrite IH. split; [auto | intros [H | H]; [discriminate | exact H]].
Qed.

Lemma non_null_length (stories : list (option HackerNews.HNStory)) :
  (List.length (HackerNews.non_null stories) <= List.length stories)%nat.
Proof.
  induction stories as [|[s|] stories IH];
    cbn [HackerNews.non_null List.length]; lia.
Qed.

Lemma map_at_length {A B : Type} (f : Z -> A -> B) (clock : nat -> Z)
    (k : nat) (l : list A) :
  List.length (HackerNews.map_at f clock k l) = List.length l.
Proof.
  revert k. induction l as [|x l IH]; intro k;
    cbn [HackerNews.map_at List.length]; [reflexivity|]. now rewrite IH.
Qed.

Lemma map_at_In {A B : Type} (f : Z -> A -> B) (clock : nat -> Z)
    (k : nat) (l : list A) (y : B) :
  In y (HackerNews.map_at f clock k l) ->
  exists t x, In x l /\ y = f t x.
Proof.
  revert k. induction l as [|x l IH]; intro k; cbn [HackerNews.map_at In];
    [contradiction|].
  intros [<- | H].
  - exists (clock k), x. split; [now left | reflexivity].
  - destruct (IH _ H) as (t & x' & Hin & E). exists t, x'.
    split; [now right | exact E].
Qed.

End AdapterFacts.

Section HackerNewsProperties.

Import HackerNews.
Local Open Scope list_scope.

(** X27: [fetchFeed] of the Hacker News adapter fails only when the list
    of top stories cannot be fetched.  Otherwise it returns one item for
    each of the first [limit] stories whose own request succeeded (a
    failed story request only drops that story): never more than [limit]
    items, each with source "hackernews", the id "hn:" followed by the
    story id, a non-empty URL, the date of the call as [cached_at] and a
    rank score. *)
Theorem fetchFeed_top_stories (api : Api) (limit : option Z) (now : Z)
    (clock : nat -> Z) :
  let n := match limit with Some n => n | None => 30 end in
  match topstories api with
  | Throw e => fetchFeed api limit now clock = Throw e
  | Ok storyIds =>
      exists items,
        fetchFeed api limit now clock = Ok items
        /\ List.length items
           = List.length (non_null (map (fetchStory api) (slice_to n storyIds)))
        /\ (List.length items <= List.length storyIds)%nat
        /\ (0 <= n -> Z.of_nat (List.length items) <= n)
        /\ (forall item, In item items ->
              source item = "hackernews"%string
              /\ cached_at item = DateMs now
              /\ rank_score item <> None
              /\ url item <> ""%string
              /\ exists i story,
                   In i storyIds /\ fetchStory api i = Some story
                   /\ id item = ("hn:" ++ show_Z (story_id story))%string
                   /\ title item = story_title story
                   /\ published_at item = new_Date (story_time story * 1000))
  end.
Proof.
  cbv zeta. unfold fetchFeed.
  destruct (topstories api) as [storyIds|e]; [|reflexivity].
  set (n := match limit with Some n => n | None => 30 end).
  eexists. split; [reflexivity|].
  rewrite map_at_length.
  pose proof (non_null_length (map (fetchStory api) (slice_to n storyIds))) as H1.
  rewrite length_map in H1.
  destruct (slice_to_length n storyIds) as [H2 H3].
  split; [reflexivity|]. split; [lia|]. split; [intro Hn; specialize (H3 Hn); lia|].
  intros item Hin. apply map_at_In in Hin as (t & story & Hs & ->).
  apply non_null_In in Hs. apply in_map_iff in Hs as (i & Hi & Hin).
  apply slice_to_In in Hin.
  unfold item_of_story.
  cbn [id source title url cached_at rank_score published_at].
  split; [reflexivity|]. split; [reflexivity|]. split; [discriminate|].
  split; [destruct (story_url story) as [[|c u]|]; discriminate|].
  exists i, story. repeat split; assumption.
Qed.

End HackerNewsProperties.

Section HackerNewsRefresh.

Import HackerNews.
Local Open Scope list_scope.




End HackerNewsRefresh.

Section StripHtmlFacts.

Import RSS.

Lemma removeTags_contains_gt (s : string) (b : bool) :
  contains_gt s = false -> contains_gt (removeTags s b) = false.
Proof.
  revert b. induction s as [|c s IH]; intros b; [reflexivity|].
  cbn [contains_gt removeTags]. intro H.
  apply orb_false_iff in H as [Hc Hs]. rewrite Hc, Hs.
  rewrite andb_false_r. destruct b; [now apply IH|].
  cbn [contains_gt]. rewrite Hc. now apply IH.
Qed.

Lemma removeTags_no_tag (s : string) (b : bool) :
  has_tag (removeTags s b) = false.
Proof.
  revert b. induction s as [|c s IH]; intro b; [reflexivity|].
  cbn [removeTags]. destruct b.
  - destruct (Ascii.eqb c ">"); apply IH.
  - destruct (Ascii.eqb c "<") eqn:Ec; cbn [andb].
    + destruct (contains_gt s) eqn:Eg; [apply IH|].
      cbn [has_tag]. rewrite Ec, (removeTags_contains_gt s false Eg).
      cbn [andb orb]. apply IH.
    + cbn [has_tag]. rewrite Ec. cbn [andb orb]. apply IH.
Qed.

Lemma removeTags_plain (s : string) :
  plain_text s = true -> removeTags s false = s.
Proof.
  induction s as [|c s IH]; [reflexivity|]. cbn [plain_text removeTags].
  intro H. apply andb_true_iff in H as [H Hs].
  apply andb_true_iff in H as [H1 _]. apply negb_true_iff in H1.
  rewrite H1. cbn [andb]. now rewrite IH.
Qed.

Lemma replaceAll_plain (pattern replacement s : string) :
  String.prefix "&" pattern = true ->
  plain_text s = true -> replaceAll pattern replacement s = s.
Proof.
  intros Hp. unfold replaceAll.
  induction s as [|c s IH]; [reflexivity|]. cbn [plain_text replaceAll_from].
  intro H. apply andb_true_iff in H as [H Hs].
  apply andb_true_iff in H as [_ H2]. apply negb_true_iff in H2.
  replace (String.prefix pattern (String c s)) with false.
  - now rewrite IH.
  - symmetry. destruct pattern as [|p pattern]; [discriminate|].
    cbn [String.prefix] in *.
    destruct (ascii_dec "&" p) as [<-|N]; [|discriminate].
    destruct (ascii_dec "&" c) as [<-|N]; [|reflexivity].
    discriminate H2.
Qed.

Lemma trimEnd_cons (c : ascii) (s : string) :
  trimEnd (String c s) =
  match trimEnd s with
  | EmptyString => if is_space c then EmptyString else String c EmptyString
  | t => String c t
  end.
Proof. reflexivity. Qed.

Lemma trimEnd_idem (s : string) : trimEnd (trimEnd s) = trimEnd s.
Proof.
  induction s as [|c s IH]; [reflexivity|]. rewrite (trimEnd_cons c s).
  destruct (trimEnd s) as [|d t] eqn:E.
  - destruct (is_space c) eqn:Ec; [reflexivity|].
    rewrite trimEnd_cons. cbn [trimEnd]. now rewrite Ec.
  - rewrite trimEnd_cons, IH. reflexivity.
Qed.

Lemma trimEnd_head (c : ascii) (s : string) :
  is_space c = false -> exists t, trimEnd (String c s) = String c t.
Proof.
  intro Hc. cbn [trimEnd]. destruct (trimEnd s); [rewrite Hc|]; eauto.
Qed.

Lemma trimStart_head (s : string) :
  match trimStart s with
  | EmptyString => True
  | String c _ => is_space c = false
  end.
Proof.
  induction s as [|c s IH]; [exact I|]. cbn [trimStart].
  destruct (is_space c) eqn:E; [exact IH | exact E].
Qed.

Lemma trim_idem (s : string) : trim (trim s) = trim s.
Proof.
  unfold trim. pose proof (trimStart_head s) as H.
  destruct (trimStart s) as [|c t]; [reflexivity|].
  destruct (trimEnd_head c t H) as [u E]. rewrite E.
  cbn [trimStart]. rewrite H. rewrite <- E. apply trimEnd_idem.
Qed.

End StripHtmlFacts.

Section RSSProperties.

Import RSS.
Local Open Scope list_scope.

(** X29: [stripHtml] returns text without white space at either end
    (trimming it again changes nothing), and on text without [<] and [&]
    it only trims.  Removing the tags leaves no [<] that is followed by a
    [>]; the entities are decoded after that, so the result can contain a
    tag again, and an escaped entity is decoded twice. *)
Theorem stripHtml_behaviour :
  (forall html, trim (stripHtml html) = stripHtml html)
  /\ (forall text, plain_text text = true -> stripHtml text = trim text)
  /\ (forall html, has_tag (removeTags html false) = false)
  /\ stripHtml "<p>1 &lt; 2</p> &lt;b&gt;" = "1 < 2 <b>"%string
  /\ stripHtml "&amp;lt;" = "<"%string.
Proof.
  split; [intro html; apply trim_idem|].
  split.
  - intros text H. unfold stripHtml.
    rewrite (removeTags_plain text H).
    rewrite (replaceAll_plain "&nbsp;" " " text eq_refl H).
    rewrite (replaceAll_plain "&amp;" "&" text eq_refl H).
    rewrite (replaceAll_plain "&lt;" "<" text eq_refl H).
    rewrite (replaceAll_plain "&gt;" ">" text eq_refl H).
    rewrite (replaceAll_plain "&quot;" _ text eq_refl H).
    reflexivity.
  - split; [intro html; apply removeTags_no_tag|].
    split; reflexivity.
Qed.

Lemma stripHtml_behaviour_witness :
  stripHtml "  Rust 1.0 released  " = "Rust 1.0 released"%string.
Proof.
  rewrite (proj1 (proj2 stripHtml_behaviour) "  Rust 1.0 released  " eq_refl).
  reflexivity.
Defined.

Lemma slice_to_length_eq {A : Type} (n : Z) (l : list A) :
  0 <= n -> Z.of_nat (List.length (slice_to n l)) <= n.
Proof. apply slice_to_length. Qed.

Lemma map_items_length (parseDate : string -> Date) (name : string) (now : Z)
    (clock : nat -> Z * Z) (k : nat) (items : list ParsedItem) :
  List.length (map_items parseDate name now clock k items) = List.length items.
Proof.
  revert k. induction items as [|x items IH]; intro k;
    cbn [map_items List.length]; [reflexivity|]. now rewrite IH.
Qed.

Lemma map_items_In (parseDate : string -> Date) (name : string) (now : Z)
    (clock : nat -> Z * Z) (k : nat) (items : list ParsedItem)
    (y : FeedItem) :
  In y (map_items parseDate name now clock k items) ->
  exists created scored x,
    In x items /\ y = item_of_parsed parseDate name now created scored x.
Proof.
  revert k. induction items as [|x items IH]; intro k; cbn [map_items In];
    [contradiction|].
  intros [<- | H].
  - exists (fst (clock k)), (snd (clock k)), x. split; [now left | reflexivity].
  - destruct (IH _ H) as (c & s & x' & Hin & E). exists c, s, x'.
    split; [now right | exact E].
Qed.

(** X30: [fetchFeed] of the RSS adapter fails only when the feed cannot
    be fetched or parsed.  Otherwise it returns one item for each of the
    first [limit] entries, each with the source "rss:" + name, an id that
    starts with "rss:" + name + ":", a non-empty title, a content without
    white space at its ends, no engagement counts and a rank score.  An
    entry without [pubDate] gets the current date and can always be
    stored; entries that have neither [guid] nor [link] nor [title] all
    get the same id, ending in "undefined". *)
Theorem fetchFeed_rss_items (parseDate : string -> Date) (name : string)
    (parsed : result (list ParsedItem)) (limit : option Z) (now : Z)
    (clock : nat -> Z * Z) :
  let n := match limit with Some n => n | None => 50 end in
  match parsed with
  | Throw e => fetchFeed parseDate name parsed limit now clock = Throw e
  | Ok entries =>
      exists items,
        fetchFeed parseDate name parsed limit now clock = Ok items
        /\ List.length items = List.length (slice_to n entries)
        /\ (0 <= n -> Z.of_nat (List.length items) <= n)
        /\ (forall item, In item items ->
              source item = ("rss:" ++ name)%string
              /\ title item <> ""%string
              /\ points item = None /\ comments item = None
              /\ cached_at item = DateMs now
              /\ rank_score item <> None
              /\ (exists text, content item = Some text /\ trim text = text)
              /\ exists created scored entry,
                   In entry entries
                   /\ item = item_of_parsed parseDate name now created scored
                               entry
                   /\ id item =
                      ("rss:" ++ name ++ ":"
                       ++ show_optional
                            (or_else (guid entry)
                               (or_else (link entry) (item_title entry))))%string
                   /\ (pubDate entry = None -> storable item = true)
                   /\ (guid entry = None -> link entry = None ->
                       item_title entry = None ->
                       id item = ("rss:" ++ name ++ ":undefined")%string))
  end.
Proof.
  cbv zeta. unfold fetchFeed. destruct parsed as [entries|e]; [|reflexivity].
  set (n := match limit with Some n => n | None => 50 end).
  eexists. split; [reflexivity|]. rewrite map_items_length.
  split; [reflexivity|]. split; [apply slice_to_length_eq|].
  intros item Hin.
  apply map_items_In in Hin as (created & scored & entry & Hentry & ->).
  apply slice_to_In in Hentry.
  unfold item_of_parsed.
  cbn [id source title url content points comments cached_at rank_score
       published_at].
  split; [reflexivity|].
  split; [destruct (item_title entry) as [[|c s]|]; discriminate|].
  split; [reflexivity|]. split; [reflexivity|]. split; [reflexivity|].
  split; [discriminate|].
  split; [eexists; split; [reflexivity | apply trim_idem]|].
  exists created, scored, entry.
  split; [exact Hentry|]. split; [reflexivity|]. split; [reflexivity|].
  split.
  - intro Hp. unfold storable. cbn [published_at cached_at]. now rewrite Hp.
  - intros -> -> ->. reflexivity.
Qed.

End RSSProperties.

(* ================================================================== *)
(** * Instances *)
(* ================================================================== *)

Section Instances.

Import HackerNews RSS.
Local Open Scope list_scope.

Lemma calculateRankScore_never_negative_witness :
  (0 <=? calculateRankScore 1700000000000 (funding_post 1700000000000 0))%float
  = true.
Proof.
  apply (proj2 (calculateRankScore_never_negative 1700000000000
                  (funding_post 1700000000000 0))).
  reflexivity.
Defined.

Lemma fetchFeed_top_stories_witness :
  exists items,
    HackerNews.fetchFeed
      (mkApi (Ok [7; 8; 9])
         (fun i => if i =? 8 then None
                   else Some (mkStory i "A story" None None "ann" 1700000000
                                5%float 1%float "story")))
      (Some 2) 1700000100000 (fun _ => 1700000100001)
    = Ok items
    /\ Z.of_nat (List.length items) <= 2.
Proof.
  pose proof (fetchFeed_top_stories
                (mkApi (Ok [7; 8; 9])
                   (fun i => if i =? 8 then None
                             else Some (mkStory i "A story" None None "ann"
                                          1700000000 5%float 1%float "story")))
                (Some 2) 1700000100000 (fun _ => 1700000100001)) as H.
  cbv zeta in H. cbn [topstories] in H.
  destruct H as (items & Hfetch & _ & _ & Hlen & _).
  exists items. split; [exact Hfetch | apply Hlen; lia].
Defined.

Lemma fetchFeed_rss_items_witness :
  exists items,
    RSS.fetchFeed (fun _ => InvalidDate) "blog"
      (Ok [ mkParsedItem None None None None None None None None None;
            mkParsedItem None None None None None None None None None ])
      None 1700000100000 (fun _ => (1700000100001, 1700000100002))
    = Ok items
    /\ Z.of_nat (List.length items) <= 50.
Proof.
  pose proof (fetchFeed_rss_items (fun _ => InvalidDate) "blog"
                (Ok [ mkParsedItem None None None None None None None None None;
                      mkParsedItem None None None None None None None None None ])
                None 1700000100000
                (fun _ => (1700000100001, 1700000100002))) as H.
  cbv zeta in H.
  destruct H as (items & Hfetch & _ & Hlen & _).
  exists items. split; [exact Hfetch | apply Hlen; lia].
Defined.

End Instances.
